(** * HWI: the STM32F4 CDC-ACM transport and its enumeration script

    A shallow embedding of
    - [hwilib/devices/trezorlib/transport/cdcacm.py]
      ([CDCACMHandle], [CDCACMTransport]) and
    - [hwilib/devices/stm32f4.py] ([enumerate]),
    followed by the properties that hold of them.

    Python objects are records, mutated attributes are threaded through a
    state, and everything the code does to the outside (USB requests,
    sleeps, prints) is appended to a chronological trace.  Exceptions are
    values of [exn]; a statement either returns, raises, or (for a read on
    an endpoint that has nothing more to deliver) blocks. *)

From Stdlib Require Import ZArith Strings.Byte DecimalString.
From stdpp Require Import gmap strings list.

(** ** Exceptions and the effect monad *)

Inductive exn :=
| IOError (msg : string)
| TransportException (msg : string)
| AssertionError
| NameError (name : string)
| KeyError (key : string)
| TypeError
| USBError (errno : Z)
| NotImplementedError
| DeviceNotReadyError (msg : string)
| HWWError (msg : string) (code : Z)
| Exception (msg : string).

Inductive result (A : Type) :=
| Return (a : A)
| Raise (e : exn)
| Blocked.
Arguments Return {A} a.
Arguments Raise {A} e.
Arguments Blocked {A}.

Definition M (S A : Type) : Type := S -> result A * S.

Definition ret {S A} (a : A) : M S A := fun s => (Return a, s).

Definition bind {S A B} (m : M S A) (k : A -> M S B) : M S B :=
  fun s =>
    match m s with
    | (Return a, s') => k a s'
    | (Raise e, s') => (Raise e, s')
    | (Blocked, s') => (Blocked, s')
    end.

Definition raise {S A} (e : exn) : M S A := fun s => (Raise e, s).

Definition gets {S A} (f : S -> A) : M S A := fun s => (Return (f s), s).

Definition modify {S} (f : S -> S) : M S unit := fun s => (Return tt, f s).

(** [try: m except: pass] with a bare [except]: every exception is dropped,
    the effects [m] had before raising stay. *)
Definition try_except_pass {S} (m : M S unit) : M S unit :=
  fun s =>
    match m s with
    | (Raise _, s') => (Return tt, s')
    | r => r
    end.

Notation "x <- m ;; k" := (bind m (fun x => k))
  (at level 20, m at level 99, k at level 200, only parsing).
Notation "m ;; k" := (bind m (fun _ => k))
  (at level 100, k at level 200, only parsing, right associativity).

(** ** Python formatting helpers *)

(** ["%d" % n] for a length. *)
Definition fmt_d (n : nat) : string := NilEmpty.string_of_uint (Nat.to_uint n).

(** ["%03i" % z]: decimal, zero padded to width 3, the sign counted in. *)
Definition zero_pad (width : nat) (s : string) : string :=
  String.concat "" (replicate (width - String.length s) "0") +:+ s.

Definition fmt_03i (z : Z) : string :=
  if (z <? 0)%Z
  then "-" +:+ zero_pad 2 (fmt_d (Z.to_nat (- z)))
  else zero_pad 3 (fmt_d (Z.to_nat z)).

(** [needle in haystack] on strings. *)
Definition str_in (needle haystack : string) : bool :=
  match String.index 0 needle haystack with
  | Some _ => true
  | None => false
  end.

(** ** The USB world *)

(** pyusb constants used by the transport. *)
Definition CLASS_COMM : Z := 0x02.
Definition CLASS_DATA : Z := 0x0A.
Definition ENDPOINT_IN : Z := 0x80.

(** [usb.util.endpoint_direction]: the direction bit of the address. *)
Definition endpoint_direction (address : Z) : Z := Z.land address 0x80.

Record Endpoint := { bEndpointAddress : Z }.

Record Interface := {
  bInterfaceClass : Z;
  index : Z;
  endpoints : list Endpoint
}.

Inductive PrintArg :=
| PStr (s : string)
| PBytes (b : list byte).

(** What the code asks of the outside, in the order it asks. *)
Inductive Event :=
| EvGetActiveConfiguration
| EvIsKernelDriverActive (idx : Z)
| EvDetachKernelDriver (idx : Z)
| EvCtrlTransfer (bmRequestType bRequest wValue wIndex : Z)
                 (data : option (list byte))
| EvWrite (ep : Endpoint) (data : list byte)
| EvRead (ep : Endpoint) (size : Z)
| EvSleepMs (ms : Z)
| EvPrint (args : list PrintArg).

(** How a call into pyusb fails: with its [USBError], or with
    [NotImplementedError] where the backend lacks the operation. *)
Inductive UsbFailure :=
| FailUSBError (errno : Z)
| FailNotImplemented.

Definition usb_exn (f : UsbFailure) : exn :=
  match f with
  | FailUSBError errno => USBError errno
  | FailNotImplemented => NotImplementedError
  end.

(** A [usb.core.Device].  [fault] says which requests the USB stack refuses
    and how. *)
Record Device := {
  bus : Z;
  address : Z;
  idVendor : Z;
  idProduct : Z;
  bNumConfigurations : nat;
  configuration : list Interface;
  fault : Event -> option UsbFailure
}.

(** One answer of the IN endpoint to a [read]. *)
Inductive Delivery :=
| Data (piece : list byte)
| Fault (f : UsbFailure).

Record Usb := {
  kernel_driver : list Z;
  rx : list Delivery;
  trace : list Event
}.

Definition emit (ev : Event) (u : Usb) : Usb :=
  {| kernel_driver := kernel_driver u; rx := rx u; trace := trace u ++ [ev] |}.

Definition Z_mem (z : Z) (l : list Z) : bool := existsb (Z.eqb z) l.

(** ** cdcacm.py *)

Definition INTERFACE : Z := 0.
Definition ENDPOINT : Z := 1.
Definition DEBUG_INTERFACE : Z := 1.
Definition DEBUG_ENDPOINT : Z := 2.

Record CDCACMHandle := {
  device : Device;
  interface : Z;
  endpoint : Z;
  count : Z;
  readhandle : option Endpoint;
  writehandle : option Endpoint
}.

Definition set_readhandle (e : Endpoint) (h : CDCACMHandle) : CDCACMHandle :=
  {| device := device h; interface := interface h; endpoint := endpoint h;
     count := count h; readhandle := Some e; writehandle := writehandle h |}.

Definition set_writehandle (e : Endpoint) (h : CDCACMHandle) : CDCACMHandle :=
  {| device := device h; interface := interface h; endpoint := endpoint h;
     count := count h; readhandle := readhandle h; writehandle := Some e |}.

(** The state a method of a handle runs in: the object and the USB world. *)
Definition HS : Type := CDCACMHandle * Usb.

Definition io (ev : Event) : M HS unit := modify (fun s => (s.1, emit ev s.2)).

Definition update_self (f : CDCACMHandle -> CDCACMHandle) : M HS unit :=
  modify (fun s => (f s.1, s.2)).

(** A request to the device: recorded, then refused or carried out. *)
Definition request (d : Device) (ev : Event) : M HS unit :=
  io ev ;;
  match fault d ev with
  | Some f => raise (usb_exn f)
  | None => ret tt
  end.

Definition get_active_configuration (d : Device) : M HS (list Interface) :=
  request d EvGetActiveConfiguration ;;
  ret (configuration d).

Definition is_kernel_driver_active (d : Device) (idx : Z) : M HS bool :=
  request d (EvIsKernelDriverActive idx) ;;
  gets (fun s => Z_mem idx (kernel_driver s.2)).

Definition detach_kernel_driver (d : Device) (idx : Z) : M HS unit :=
  request d (EvDetachKernelDriver idx) ;;
  modify (fun s =>
    (s.1, {| kernel_driver := filter (fun i => i ≠ idx) (kernel_driver s.2);
             rx := rx s.2; trace := trace s.2 |})).

Definition ctrl_transfer (d : Device) (bmRequestType bRequest wValue wIndex : Z)
    (data : option (list byte)) : M HS unit :=
  request d (EvCtrlTransfer bmRequestType bRequest wValue wIndex data).

Module CDCACMHandle.

(** [__init__] *)
Definition init (dev : Device) (debug : bool) : CDCACMHandle :=
  {| device := dev;
     interface := if debug then DEBUG_INTERFACE else INTERFACE;
     endpoint := if debug then DEBUG_ENDPOINT else ENDPOINT;
     count := 0;
     readhandle := None;
     writehandle := None |}.

Definition detach_if_active (d : Device) (idx : Z) : M HS unit :=
  active <- is_kernel_driver_active d idx ;;
  if active then detach_kernel_driver d idx else ret tt.

(** The first [for] of [open].  [control] is the loop variable, which
    stays bound after the loop: to the communications interface when the
    loop broke on it, to the last interface otherwise, to nothing when
    there was no interface. *)
Fixpoint control_loop (d : Device) (ifaces : list Interface)
    (control : option Interface) : M HS (option Interface) :=
  match ifaces with
  | [] => ret control
  | i :: rest =>
      if (bInterfaceClass i =? CLASS_COMM)%Z
      then detach_if_active d (index i) ;; ret (Some i)
      else control_loop d rest (Some i)
  end.

(** The inner [for] over the endpoints of the data interface. *)
Fixpoint endpoint_loop (eps : list Endpoint) : M HS unit :=
  match eps with
  | [] => ret tt
  | e :: rest =>
      (if (endpoint_direction (bEndpointAddress e) =? ENDPOINT_IN)%Z
       then update_self (set_readhandle e)
       else update_self (set_writehandle e)) ;;
      endpoint_loop rest
  end.

(** The second [for] of [open]. *)
Fixpoint cdcdata_loop (d : Device) (ifaces : list Interface) : M HS unit :=
  match ifaces with
  | [] => ret tt
  | i :: rest =>
      if (bInterfaceClass i =? CLASS_DATA)%Z
      then detach_if_active d (index i) ;; endpoint_loop (endpoints i)
      else cdcdata_loop d rest
  end.

Definition line_coding : list byte := [x80; x25; x00; x00; x00; x00; x08].

Definition open : M HS unit :=
  d <- gets (fun s => device s.1) ;;
  ifaces <- get_active_configuration d ;;
  control <- control_loop d ifaces None ;;
  ifaces' <- get_active_configuration d ;;
  cdcdata_loop d ifaces' ;;
  rh <- gets (fun s => readhandle s.1) ;;
  wh <- gets (fun s => writehandle s.1) ;;
  (if bool_decide (rh = None) || bool_decide (wh = None)
   then raise (IOError "Cannot open STMicroelectronics CDC ACM device")
   else ret tt) ;;
  try_except_pass
    (idx <- match control with
            | Some c => ret (index c)
            | None => raise (NameError "control")
            end ;;
     ctrl_transfer d 0x21 0x22 (Z.lor 0x01 0x02) idx None ;;
     idx' <- match control with
             | Some c => ret (index c)
             | None => raise (NameError "control")
             end ;;
     ctrl_transfer d 0x21 0x20 0 idx' (Some line_coding)).

(** The body is [pass]; the release of the interface is a comment. *)
Definition close : M HS unit := ret tt.

Definition write_chunk (chunk : list byte) : M HS unit :=
  io (EvPrint [PStr "CDCACMHandle.write_chunk("; PBytes chunk; PStr ")"]) ;;
  wh <- gets (fun s => writehandle s.1) ;;
  match wh with
  | None => raise AssertionError
  | Some ep =>
      if bool_decide (length chunk ≠ 64)
      then raise (TransportException
                    ("Unexpected chunk size: " +:+ fmt_d (length chunk)))
      else d <- gets (fun s => device s.1) ;;
           request d (EvWrite ep chunk)
  end.

(** The [while True] of [read_chunk], by recursion on what the endpoint
    still has to deliver; with nothing left the read blocks. *)
Fixpoint read_loop (ep : Endpoint) (pending : list Delivery)
    (chunk : list byte) (tr : list Event)
    : result (list byte) * (list Delivery * list Event) :=
  let tr1 := tr ++ [EvRead ep (64 - Z.of_nat (length chunk))] in
  match pending with
  | [] => (Blocked, ([], tr1))
  | Fault f :: rest => (Raise (usb_exn f), (rest, tr1))
  | Data chunkchunk :: rest =>
      let chunk' := chunk ++ chunkchunk in
      if bool_decide (length chunk' < 64)
      then read_loop ep rest chunk' (tr1 ++ [EvSleepMs 1])
      else if bool_decide (length chunk' = 64)
      then (Return chunk', (rest, tr1))
      else (Raise (TransportException
                     ("Unexpected chunk size: " +:+ fmt_d (length chunk'))),
            (rest, tr1))
  end.

Definition read_chunk : M HS (list byte) :=
  rh <- gets (fun s => readhandle s.1) ;;
  match rh with
  | None => raise AssertionError
  | Some ep =>
      chunk <- (fun s : HS =>
                  let '(r, (pending, tr)) :=
                    read_loop ep (rx s.2) [] (trace s.2) in
                  (r, (s.1, {| kernel_driver := kernel_driver s.2;
                               rx := pending; trace := tr |}))) ;;
      io (EvPrint [PStr "CDCACMHandle.read_chunk() = "; PBytes chunk]) ;;
      ret chunk
  end.

End CDCACMHandle.

(** The handles live in a heap and are held by reference, so that two
    transports can hold the same handle object. *)
Definition Heap : Type := list CDCACMHandle.

Definition alloc (h : CDCACMHandle) : M Heap nat :=
  fun heap => (Return (length heap), heap ++ [h]).

(** [usb.core.find(idVendor=v, idProduct=p)] of pyusb, called without
    [find_all]: the first device of the bus that matches, or [None]. *)
Definition usb_core_find (usb_bus : list Device) (v p : Z) : option Device :=
  List.find (fun d => (idVendor d =? v)%Z && (idProduct d =? p)%Z) usb_bus.

(** Iterating a pyusb [Device] yields its configurations, and the [device]
    attribute of each of them is the device itself. *)
Definition iter_device (d : Device) : list Device :=
  replicate (bNumConfigurations d) d.

Module CDCACMTransport.

Record Protocol := { VERSION : Z; p_handle : nat }.

Record t := {
  device : Device;
  handle : nat;
  debug : bool;
  protocol : Protocol
}.

Definition PATH_PREFIX : string := "cdcacm".

Section Imported.

(** Names imported from modules of the package that are not among the
    sources: the class attribute [ProtocolV1.VERSION] of [protocol.py]
    and the pair [DEV_STM32F4] of the package's [__init__.py]. *)
Variable ProtocolV1_VERSION : Z.
Variable DEV_STM32F4 : Z * Z.

Definition ProtocolV1 (handle : nat) : Protocol :=
  {| VERSION := ProtocolV1_VERSION; p_handle := handle |}.

(** [__init__] *)
Definition init (device : Device) (handle : option nat) (debug : bool)
    : M Heap t :=
  handle <- match handle with
            | None => alloc (CDCACMHandle.init device debug)
            | Some h => ret h
            end ;;
  ret {| device := device; handle := handle; debug := debug;
         protocol := ProtocolV1 handle |}.

Definition get_path (self : t) : string :=
  PATH_PREFIX +:+ ":" +:+ fmt_03i (bus (device self)) +:+ ":"
    +:+ fmt_03i (address (device self)).

Definition get_usb_vendor_id (self : t) : Z := idVendor (device self).

Fixpoint construct_all (ds : list Device) : M Heap (list t) :=
  match ds with
  | [] => ret []
  | d :: rest =>
      x <- init d None false ;;
      xs <- construct_all rest ;;
      ret (x :: xs)
  end.

Definition enumerate (usb_bus : list Device) : M Heap (list t) :=
  match usb_core_find usb_bus DEV_STM32F4.1 DEV_STM32F4.2 with
  | Some usbdevs =>
      new <- construct_all (iter_device usbdevs) ;;
      ret ([] ++ new)
  | None => ret []
  end.

Definition find_debug (self : t) : M Heap t :=
  if (VERSION (protocol self) >=? 2)%Z
  then init (device self) (Some (handle self)) false
  else init (device self) None true.

End Imported.

End CDCACMTransport.

(** ** stm32f4.py *)

Module Stm32f4.

(** The values [enumerate] stores in a [d_data] dictionary. *)
Inductive Value :=
| VStr (s : string)
| VBool (b : bool)
| VInt (z : Z).

Definition truthy (v : Value) : bool :=
  match v with
  | VStr s => negb (String.eqb s "")
  | VBool b => b
  | VInt z => negb (z =? 0)%Z
  end.

(** [==] between two such values. *)
Definition Value_eqb (v w : Value) : bool :=
  match v, w with
  | VStr s, VStr s' => String.eqb s s'
  | VBool b, VBool b' => Bool.eqb b b'
  | VInt z, VInt z' => (z =? z')%Z
  | VBool b, VInt z | VInt z, VBool b => (Z.b2z b =? z)%Z
  | _, _ => false
  end.

(** The [features] message the client holds after [init_device]. *)
Record Features := {
  vendor : string;
  pin_protection : bool;
  pin_cached : bool;
  passphrase_protection : bool;
  initialized : bool
}.

(** What a client object does when [enumerate] calls it. *)
Record Client := {
  init_device : exn + Features;
  get_pubkey_at_path : string -> exn + string;
  close : option exn
}.

(** A transport as [enumerate_devices] yields it. *)
Record Transport := {
  get_usb_vendor_id : Z;
  get_path : string
}.

Inductive Action :=
| NewClient (password : string)
| InitDevice
| Print (s : string)
| GetPubkeyAtPath (path : string)
| Close.

(** A call on the client of the device at [path]. *)
Definition Call : Type := string * Action.

(** The variables of one iteration of the [for] of [enumerate]. *)
Record Frame := {
  d_data : gmap string Value;
  client : option Client;
  calls : list Call
}.

Definition setitem (k : string) (v : Value) : M Frame unit :=
  modify (fun f => {| d_data := <[k := v]> (d_data f); client := client f;
                      calls := calls f |}).

Definition getitem (k : string) : M Frame Value :=
  fun f =>
    match d_data f !! k with
    | Some v => (Return v, f)
    | None => (Raise (KeyError k), f)
    end.

Definition call (path : string) (a : Action) : M Frame unit :=
  modify (fun f => {| d_data := d_data f; client := client f;
                      calls := calls f ++ [(path, a)] |}).

Definition set_client (c : Client) : M Frame unit :=
  modify (fun f => {| d_data := d_data f; client := Some c;
                      calls := calls f |}).

Definition lift {A} (r : exn + A) : M Frame A :=
  match r with
  | inl e => raise e
  | inr a => ret a
  end.

Definition as_str (v : Value) : M Frame string :=
  match v with
  | VStr s => ret s
  | _ => raise TypeError
  end.

(** How the body of the [with] ends when it does not raise. *)
Inductive Flow :=
| Fallthrough
| Continue.

Section Imported.

(** Names imported from modules of the package that are not among the
    sources. *)
Variable STM32F4_VENDOR_IDS : gset Z.
Variable DEVICE_NOT_INITIALIZED : Z.
Variable DEVICE_NOT_READY : Z.
Variable UNKNOWN_ERROR : Z.
Variable common_err_msgs_enumerate : string.
Variable STM32F4Client : string -> string -> exn + Client.
Variable get_xpub_fingerprint_hex : string -> exn + string.

Definition get_code (e : exn) : Z :=
  match e with
  | DeviceNotReadyError _ => DEVICE_NOT_READY
  | HWWError _ code => code
  | _ => UNKNOWN_ERROR
  end.

Definition get_msg (e : exn) : string :=
  match e with
  | IOError m | TransportException m | DeviceNotReadyError m
  | HWWError m _ | Exception m => m
  | AssertionError => ""
  | NameError n => n
  | KeyError k => k
  | TypeError | NotImplementedError => ""
  | USBError _ => "USBError"
  end.

(** Modelled from the spec: the context manager [handle_errors] of
    [hwilib/errors.py], which is not among the sources.  An error
    raised during the probe of one device is caught at the enumerator
    boundary and turned into an [error] and a [code] entry of the
    record; nothing else of the record changes. *)
Definition handle_errors {A} (msg : string) (dflt : A) (body : M Frame A)
    : M Frame A :=
  fun f =>
    match body f with
    | (Raise e, f') =>
        (Return dflt,
         {| d_data := <["code" := VInt (get_code e)]>
                        (<["error" := VStr (msg +:+ " " +:+ get_msg e)]>
                           (d_data f'));
            client := client f'; calls := calls f' |})
    | r => r
    end.

(** The body of the [with] statement. *)
Definition probe (password : string) : M Frame Flow :=
  path <- (v <- getitem "path" ;; as_str v) ;;
  call path (NewClient password) ;;
  c <- lift (STM32F4Client path password) ;;
  set_client c ;;
  call path InitDevice ;;
  features <- lift (init_device c) ;;
  call path (Print (vendor features)) ;;
  if negb (str_in "STMicroelectronics" (vendor features))
  then ret Continue
  else
    p <- getitem "path" ;;
    (if Value_eqb p (VStr "udp:127.0.0.1:21324")
     then m <- (v <- getitem "model" ;; as_str v) ;;
          setitem "model" (VStr (m +:+ "_simulator"))
     else ret tt) ;;
    setitem "needs_pin_sent"
      (VBool (pin_protection features && negb (pin_cached features))) ;;
    setitem "needs_passphrase_sent"
      (VBool (passphrase_protection features)) ;;
    needs_pin_sent <- getitem "needs_pin_sent" ;;
    (if truthy needs_pin_sent
     then raise (DeviceNotReadyError
       "STM32F4 is locked. Unlock by using 'promptpin' and then 'sendpin'.")
     else ret tt) ;;
    needs_passphrase_sent <- getitem "needs_passphrase_sent" ;;
    (if truthy needs_passphrase_sent && negb (truthy (VStr password))
     then raise (DeviceNotReadyError
       "Passphrase needs to be specified before the fingerprint information can be retrieved")
     else ret tt) ;;
    (if initialized features
     then call path (GetPubkeyAtPath "m/0h") ;;
          master_xpub <- lift (get_pubkey_at_path c "m/0h") ;;
          fingerprint <- lift (get_xpub_fingerprint_hex master_xpub) ;;
          setitem "fingerprint" (VStr fingerprint) ;;
          setitem "needs_passphrase_sent" (VBool false)
     else setitem "error" (VStr "Not initialized") ;;
          setitem "code" (VInt DEVICE_NOT_INITIALIZED)) ;;
    ret Fallthrough.

(** The state of the whole [for]: the results and the calls made. *)
Definition Loop : Type := list (gmap string Value) * list Call.

(** One iteration of the [for] of [enumerate]. *)
Definition iteration (password : string) (dev : Transport) : M Loop unit :=
  fun '(results, log) =>
    if bool_decide (get_usb_vendor_id dev ∉ STM32F4_VENDOR_IDS ∪ {[ (-1)%Z ]})
    then (Return tt, (results, log))
    else
      let frame :=
        {| d_data := <["path" := VStr (get_path dev)]>
                       (<["model" := VStr "stm32f4"]>
                          (<["type" := VStr "stm32f4"]> ∅));
           client := None;
           calls := log |} in
      match handle_errors common_err_msgs_enumerate Fallthrough
              (probe password) frame with
      | (Return Continue, f) => (Return tt, (results, calls f))
      | (Return Fallthrough, f) =>
          match client f with
          | Some c =>
              let log' := calls f ++ [(get_path dev, Close)] in
              match close c with
              | Some e => (Raise e, (results, log'))
              | None => (Return tt, (results ++ [d_data f], log'))
              end
          | None => (Return tt, (results ++ [d_data f], calls f))
          end
      | (Raise e, f) => (Raise e, (results, calls f))
      | (Blocked, f) => (Blocked, (results, calls f))
      end.

Fixpoint for_each (password : string) (devs : list Transport)
    : M Loop unit :=
  match devs with
  | [] => ret tt
  | dev :: rest => iteration password dev ;; for_each password rest
  end.

Definition enumerate (enumerate_devices : list Transport)
    (password : string) : result (list (gmap string Value)) * list Call :=
  match for_each password enumerate_devices ([], []) with
  | (Return _, (results, log)) => (Return results, log)
  | (Raise e, (_, log)) => (Raise e, log)
  | (Blocked, (_, log)) => (Blocked, log)
  end.

(** *** The probe of one device as a decision table

    What the [with] statement of one iteration leaves behind, read off
    the answers of the client: how the body ended, the record, the
    [client] variable and the calls made.  [probe_table] below proves it
    equal to running [probe] under [handle_errors]. *)

Definition base (path : string) : gmap string Value :=
  <["path" := VStr path]>
    (<["model" := VStr "stm32f4"]> (<["type" := VStr "stm32f4"]> ∅)).

Definition failed (e : exn) (d : gmap string Value) : gmap string Value :=
  <["code" := VInt (get_code e)]>
    (<["error" := VStr (common_err_msgs_enumerate +:+ " " +:+ get_msg e)]> d).

Definition flagged (path : string) (ft : Features) : gmap string Value :=
  <["needs_passphrase_sent" := VBool (passphrase_protection ft)]>
    (<["needs_pin_sent" :=
         VBool (pin_protection ft && negb (pin_cached ft))]>
       (if String.eqb path "udp:127.0.0.1:21324"
        then <["model" := VStr ("stm32f4" +:+ "_simulator")]> (base path)
        else base path)).

Definition locked : exn :=
  DeviceNotReadyError
    "STM32F4 is locked. Unlock by using 'promptpin' and then 'sendpin'.".

Definition passphrase_needed : exn :=
  DeviceNotReadyError
    "Passphrase needs to be specified before the fingerprint information can be retrieved".

(** A record that tells which device it is about. *)
Definition identified (path : string) (d : gmap string Value) : Prop :=
  d !! "type" = Some (VStr "stm32f4") /\
  is_Some (d !! "model") /\
  d !! "path" = Some (VStr path).

Record Probed := {
  flow : Flow;
  record : gmap string Value;
  held : option Client;
  made : list Action
}.

Definition probed (password path : string) : Probed :=
  match STM32F4Client path password with
  | inl e => {| flow := Fallthrough; record := failed e (base path);
                held := None; made := [NewClient password] |}
  | inr c =>
    match init_device c with
    | inl e => {| flow := Fallthrough; record := failed e (base path);
                  held := Some c;
                  made := [NewClient password; InitDevice] |}
    | inr ft =>
      let seen := [NewClient password; InitDevice; Print (vendor ft)] in
      if negb (str_in "STMicroelectronics" (vendor ft))
      then {| flow := Continue; record := base path; held := Some c;
              made := seen |}
      else if pin_protection ft && negb (pin_cached ft)
      then {| flow := Fallthrough;
              record := failed locked (flagged path ft);
              held := Some c; made := seen |}
      else if passphrase_protection ft && String.eqb password ""
      then {| flow := Fallthrough;
              record := failed passphrase_needed (flagged path ft);
              held := Some c; made := seen |}
      else if initialized ft
      then
        let fetched := seen ++ [GetPubkeyAtPath "m/0h"] in
        match get_pubkey_at_path c "m/0h" with
        | inl e => {| flow := Fallthrough;
                      record := failed e (flagged path ft);
                      held := Some c; made := fetched |}
        | inr master_xpub =>
          match get_xpub_fingerprint_hex master_xpub with
          | inl e => {| flow := Fallthrough;
                        record := failed e (flagged path ft);
                        held := Some c; made := fetched |}
          | inr fingerprint =>
              {| flow := Fallthrough;
                 record := <["needs_passphrase_sent" := VBool false]>
                             (<["fingerprint" := VStr fingerprint]>
                                (flagged path ft));
                 held := Some c; made := fetched |}
          end
        end
      else {| flow := Fallthrough;
              record := <["code" := VInt DEVICE_NOT_INITIALIZED]>
                          (<["error" := VStr "Not initialized"]>
                             (flagged path ft));
              held := Some c; made := seen |}
    end
  end.

End Imported.

End Stm32f4.

(** * Definitions for the statements

    Closed forms of what the code computes, the shapes of the traces, and
    the concrete devices used in the runs. *)

(** ** Traces of [read_chunk] and [write_chunk] *)

(** The reads that left the chunk short: each asks for what is still
    missing and is followed by the 1 ms sleep. *)
Fixpoint partial_reads (ep : Endpoint) (got : nat) (pieces : list (list byte))
    : list Event :=
  match pieces with
  | [] => []
  | p :: rest =>
      EvRead ep (64 - Z.of_nat got) :: EvSleepMs 1
        :: partial_reads ep (got + length p) rest
  end.

(** The exception both chunk methods raise on a wrong length [n]. *)
Definition chunk_size_error (n : nat) : exn :=
  TransportException ("Unexpected chunk size: " +:+ fmt_d n).

Definition printed_read (chunk : list byte) : Event :=
  EvPrint [PStr "CDCACMHandle.read_chunk() = "; PBytes chunk].

Definition printed_write (chunk : list byte) : Event :=
  EvPrint [PStr "CDCACMHandle.write_chunk("; PBytes chunk; PStr ")"].

(** ** A sample device *)

(** A device with the layout the transport expects, used for the concrete
    runs below: a communications interface, and a data interface with one IN
    and one OUT endpoint. *)
Definition sample_in : Endpoint := {| bEndpointAddress := 0x81 |}.
Definition sample_out : Endpoint := {| bEndpointAddress := 0x01 |}.

Definition sample_comm : Interface :=
  {| bInterfaceClass := CLASS_COMM; index := 0; endpoints := [] |}.

Definition sample_data : Interface :=
  {| bInterfaceClass := CLASS_DATA; index := 1;
     endpoints := [sample_in; sample_out] |}.

Definition sample_device (ifaces : list Interface)
    (fault : Event -> option UsbFailure) : Device :=
  {| bus := 1; address := 4; idVendor := 0x0483; idProduct := 0x5740;
     bNumConfigurations := 1; configuration := ifaces; fault := fault |}.

Definition no_fault : Event -> option UsbFailure := fun _ => None.

Definition sample_usb (pending : list Delivery) : Usb :=
  {| kernel_driver := [0; 1]%Z; rx := pending; trace := [] |}.

(** The handle of the sample device once [open] has assigned the endpoints. *)
Definition sample_open : CDCACMHandle :=
  set_writehandle sample_out
    (set_readhandle sample_in
       (CDCACMHandle.init (sample_device [sample_comm; sample_data] no_fault)
          false)).


(** ** [open] in closed form *)

Definition is_ctrl (ev : Event) : bool :=
  match ev with
  | EvCtrlTransfer _ _ _ _ _ => true
  | _ => false
  end.

(** The USB stack answers every request of the discovery phase; control
    transfers may still be refused. *)
Definition discovery_ok (d : Device) : Prop :=
  forall ev, is_ctrl ev = false -> fault d ev = None.

Definition is_comm (i : Interface) : bool := (bInterfaceClass i =? CLASS_COMM)%Z.
Definition is_data (i : Interface) : bool := (bInterfaceClass i =? CLASS_DATA)%Z.

Definition is_in (e : Endpoint) : bool :=
  (endpoint_direction (bEndpointAddress e) =? ENDPOINT_IN)%Z.

Definition is_out (e : Endpoint) : bool := negb (is_in e).

(** The interface the two loops of [open] stop at. *)
Definition first_comm (ifaces : list Interface) : option Interface :=
  List.find is_comm ifaces.

Definition first_data (ifaces : list Interface) : option Interface :=
  List.find is_data ifaces.

(** What [control] is bound to after the first loop. *)
Definition control_of (ifaces : list Interface) : option Interface :=
  match first_comm ifaces with
  | Some c => Some c
  | None => last ifaces
  end.

Definition last_in (eps : list Endpoint) : option Endpoint :=
  last (List.filter is_in eps).

Definition last_out (eps : list Endpoint) : option Endpoint :=
  last (List.filter is_out eps).

(** The handle after the endpoint loop ran over [eps]. *)
Definition assigned (eps : list Endpoint) (h : CDCACMHandle) : CDCACMHandle :=
  {| device := device h; interface := interface h; endpoint := endpoint h;
     count := count h;
     readhandle := match last_in eps with
                   | Some e => Some e
                   | None => readhandle h
                   end;
     writehandle := match last_out eps with
                    | Some e => Some e
                    | None => writehandle h
                    end |}.

(** The world after the kernel driver of interface [idx] was asked about
    and, when bound, detached. *)
Definition detached (idx : Z) (u : Usb) : Usb :=
  if Z_mem idx (kernel_driver u)
  then {| kernel_driver := filter (fun i => i ≠ idx) (kernel_driver u);
          rx := rx u;
          trace := trace u ++ [EvIsKernelDriverActive idx;
                               EvDetachKernelDriver idx] |}
  else emit (EvIsKernelDriverActive idx) u.

(** The world after the two loops of [open]. *)
Definition discovered (d : Device) (u : Usb) : Usb :=
  let u1 := emit EvGetActiveConfiguration u in
  let u2 := match first_comm (configuration d) with
            | Some c => detached (index c) u1
            | None => u1
            end in
  let u3 := emit EvGetActiveConfiguration u2 in
  match first_data (configuration d) with
  | Some i => detached (index i) u3
  | None => u3
  end.

(** The two bits of the control line state. *)
Definition DTR : Z := 0x01.
Definition RTS : Z := 0x02.

(** The two class requests of [open], to interface [idx]. *)
Definition set_control_line_state (idx : Z) : Event :=
  EvCtrlTransfer 0x21 0x22 (Z.lor DTR RTS) idx None.

Definition set_line_coding (idx : Z) : Event :=
  EvCtrlTransfer 0x21 0x20 0 idx (Some [x80; x25; x00; x00; x00; x00; x08]).

(** The world after the [try] block of [open]. *)
Definition line_configured (d : Device) (control : option Interface) (u : Usb)
    : Usb :=
  match control with
  | None => u
  | Some c =>
      let u1 := emit (set_control_line_state (index c)) u in
      match fault d (set_control_line_state (index c)) with
      | Some _ => u1
      | None => emit (set_line_coding (index c)) u1
      end
  end.

Definition cannot_open : exn :=
  IOError "Cannot open STMicroelectronics CDC ACM device".


(** ** Sample runs of [enumerate] *)

Definition sample_vendor_ids : gset Z := {[ 0x0483%Z ]}.

Definition sample_msg : string :=
  "Could not open client or get fingerprint information:".

Definition sample_features (vendor : string) (pin cached : bool)
    : Stm32f4.Features :=
  {| Stm32f4.vendor := vendor; Stm32f4.pin_protection := pin;
     Stm32f4.pin_cached := cached; Stm32f4.passphrase_protection := false;
     Stm32f4.initialized := true |}.

Definition sample_client (ft : Stm32f4.Features) : Stm32f4.Client :=
  {| Stm32f4.init_device := inr ft;
     Stm32f4.get_pubkey_at_path := fun _ => inr "xpub661MyMwAqRbcF";
     Stm32f4.close := None |}.

Definition sample_transport : Stm32f4.Transport :=
  {| Stm32f4.get_usb_vendor_id := 0x0483;
     Stm32f4.get_path := "cdcacm:001:004" |}.

Definition sample_fingerprint (xpub : string) : exn + string := inr "0f056943".

(** The script with the imported names filled in: the error codes -18, -12
    and -13, and a client library that answers with the features [ft]. *)
Definition sample_iteration (ft : Stm32f4.Features) :=
  Stm32f4.iteration sample_vendor_ids (-18) (-12) (-13) sample_msg
    (fun _ _ => inr (sample_client ft)) sample_fingerprint.

Definition sample_enumerate (ft : Stm32f4.Features) :=
  Stm32f4.enumerate sample_vendor_ids (-18) (-12) (-13) sample_msg
    (fun _ _ => inr (sample_client ft)) sample_fingerprint.


Definition sample_locked_record : gmap string Stm32f4.Value :=
  Stm32f4.failed (-12) (-13) sample_msg Stm32f4.locked
    (Stm32f4.flagged "cdcacm:001:004"
       (sample_features "STMicroelectronics" true false)).

(** ** [find_debug] *)

(** The device has an interface with the index the debug handle names. *)
Definition exposes_debug_interface (d : Device) : bool :=
  existsb (fun i => (index i =? DEBUG_INTERFACE)%Z) (configuration d).

(** A transport of protocol version [v] on a device without any interface. *)
Definition bare_transport (v : Z) : CDCACMTransport.t :=
  {| CDCACMTransport.device := sample_device [] no_fault;
     CDCACMTransport.handle := 0;
     CDCACMTransport.debug := false;
     CDCACMTransport.protocol :=
       {| CDCACMTransport.VERSION := v; CDCACMTransport.p_handle := 0 |} |}.

(** ** What the chunk methods may ask of the outside *)

(** An event [read_chunk] may add to the trace when it reads from [ep]: a
    read of [ep] for 1 to 64 bytes, the 1 ms sleep, or a print. *)
Definition read_event_ok (ep : Endpoint) (ev : Event) : Prop :=
  match ev with
  | EvRead ep' n => ep' = ep /\ (1 <= n <= 64)%Z
  | EvSleepMs ms => ms = 1%Z
  | EvPrint _ => True
  | _ => False
  end.

(** The world once [read_chunk] has consumed deliveries up to [pending],
    after short reads of [pieces] and one more read. *)
Definition after_reads (ep : Endpoint) (pieces : list (list byte))
    (pending : list Delivery) (u : Usb) : Usb :=
  {| kernel_driver := kernel_driver u;
     rx := pending;
     trace := trace u ++ partial_reads ep 0 pieces
                ++ [EvRead ep (64 - Z.of_nat (length (concat pieces)))] |}.

(** [open] takes the kernel driver off the interface with index [idx]: it
    is the first communications-class or the first data-class interface. *)
Definition taken_over (ifaces : list Interface) (idx : Z) : bool :=
  match first_comm ifaces with
  | Some c => (idx =? index c)%Z
  | None => false
  end ||
  match first_data ifaces with
  | Some i => (idx =? index i)%Z
  | None => false
  end.

(** A USB stack whose backend cannot tell whether a kernel driver is
    bound. *)
Definition no_kernel_query (ev : Event) : option UsbFailure :=
  match ev with
  | EvIsKernelDriverActive _ => Some FailNotImplemented
  | _ => None
  end.

(** A data-class interface with an IN endpoint only. *)
Definition sample_data_in_only : Interface :=
  {| bInterfaceClass := CLASS_DATA; index := 1; endpoints := [sample_in] |}.

(** ** Paths and enumerated transports *)

(** Bus number and address fit the three digits of the path format. *)
Definition three_digits (t : CDCACMTransport.t) : Prop :=
  (0 <= bus (CDCACMTransport.device t) < 1000)%Z /\
  (0 <= address (CDCACMTransport.device t) < 1000)%Z.

(** [fmt_03i n] has three characters and reads back as [n]. *)
Definition fmt_03i_reads_back (n : nat) : bool :=
  (String.length (fmt_03i (Z.of_nat n)) =? 3) &&
  match NilEmpty.uint_of_string (fmt_03i (Z.of_nat n)) with
  | Some u => Nat.of_uint u =? n
  | None => false
  end.

(** The transport [CDCACMTransport(d)] makes on the handle at [handle]. *)
Definition main_transport (ProtocolV1_VERSION : Z) (d : Device) (handle : nat)
    : CDCACMTransport.t :=
  {| CDCACMTransport.device := d;
     CDCACMTransport.handle := handle;
     CDCACMTransport.debug := false;
     CDCACMTransport.protocol :=
       CDCACMTransport.ProtocolV1 ProtocolV1_VERSION handle |}.

(** ** Records of [enumerate] *)


(** A client whose [close] raises. *)
Definition sample_client_close_raises (ft : Stm32f4.Features)
    : Stm32f4.Client :=
  {| Stm32f4.init_device := inr ft;
     Stm32f4.get_pubkey_at_path := fun _ => inr "xpub661MyMwAqRbcF";
     Stm32f4.close := Some (USBError 19) |}.

(** Features of an unlocked device of the expected vendor. *)
Definition sample_unlocked (passphrase initialized : bool) : Stm32f4.Features :=
  {| Stm32f4.vendor := "STMicroelectronics"; Stm32f4.pin_protection := false;
     Stm32f4.pin_cached := false;
     Stm32f4.passphrase_protection := passphrase;
     Stm32f4.initialized := initialized |}.

(** The script over a client library whose clients raise in [close]. *)
Definition sample_enumerate_close_raises (ft : Stm32f4.Features) :=
  Stm32f4.enumerate sample_vendor_ids (-18) (-12) (-13) sample_msg
    (fun _ _ => inr (sample_client_close_raises ft)) sample_fingerprint.

(** A transport with a vendor identifier [enumerate] does not accept. *)
Definition foreign_transport : Stm32f4.Transport :=
  {| Stm32f4.get_usb_vendor_id := 0x1209;
     Stm32f4.get_path := "webusb:001:002" |}.

(** * Properties *)

(** ** [read_chunk] *)

Lemma read_loop_partial ep pieces pending chunk tr :
  length (chunk ++ concat pieces) < 64 ->
  CDCACMHandle.read_loop ep ((Data <$> pieces) ++ pending) chunk tr =
  CDCACMHandle.read_loop ep pending (chunk ++ concat pieces)
    (tr ++ partial_reads ep (length chunk) pieces).
Proof.
  revert chunk tr.
  induction pieces as [|p pieces IH]; intros chunk tr Hlt; simpl in *.
  - by rewrite !app_nil_r.
  - rewrite !length_app in Hlt.
    rewrite bool_decide_true by (rewrite length_app; lia).
    rewrite IH by (rewrite !length_app; lia).
    rewrite length_app, <- !app_assoc. reflexivity.
Qed.

Lemma read_loop_return_inv ep pending chunk tr c rest tr' :
  CDCACMHandle.read_loop ep pending chunk tr = (Return c, (rest, tr')) ->
  exists pieces p,
    pending = (Data <$> pieces) ++ Data p :: rest /\
    c = chunk ++ concat pieces ++ p /\
    length c = 64 /\
    tr' = tr ++ partial_reads ep (length chunk) pieces
             ++ [EvRead ep (64 - Z.of_nat (length (chunk ++ concat pieces)))].
Proof.
  revert chunk tr.
  induction pending as [|[p|e] pending IH]; intros chunk tr H; simpl in H.
  - discriminate.
  - case_bool_decide as Hlt.
    + apply IH in H as (pieces & q & -> & -> & Hlen & ->).
      exists (p :: pieces), q. simpl.
      rewrite <- !app_assoc in *. simpl. by rewrite (length_app chunk p).
    + case_bool_decide as Heq; [|discriminate].
      injection H as <- <- <-.
      exists [], p. simpl. by rewrite !app_nil_r.
  - discriminate.
Qed.

(** [read_chunk] on an open channel is the loop, followed by the print when
    the loop returned. *)
Lemma read_chunk_unfold h u ep :
  readhandle h = Some ep ->
  CDCACMHandle.read_chunk (h, u) =
  match CDCACMHandle.read_loop ep (rx u) [] (trace u) with
  | (Return c, (pending, tr)) =>
      (Return c, (h, {| kernel_driver := kernel_driver u; rx := pending;
                        trace := tr ++ [printed_read c] |}))
  | (Raise e, (pending, tr)) =>
      (Raise e, (h, {| kernel_driver := kernel_driver u; rx := pending;
                       trace := tr |}))
  | (Blocked, (pending, tr)) =>
      (Blocked, (h, {| kernel_driver := kernel_driver u; rx := pending;
                       trace := tr |}))
  end.
Proof.
  intros Hrh. unfold CDCACMHandle.read_chunk, bind, gets. simpl. rewrite Hrh.
  cbn [fst snd].
  by destruct (CDCACMHandle.read_loop ep (rx u) [] (trace u))
    as [[c|e|] [pending tr]].
Qed.

(** C1. On an open channel, whenever [read_chunk] returns, the value has
    exactly 64 bytes and is the concatenation, in order, of the pieces the IN
    endpoint delivered, each read that left the chunk short having been
    followed by a 1 ms sleep.  Conversely, pieces that add up to exactly 64
    make it return their concatenation, a piece that takes the chunk past 64
    makes it raise the chunk-size [TransportException] carrying the
    overshooting length (nothing is cut off), and as long as fewer than 64
    bytes have come it keeps reading. *)
Theorem read_chunk_exactly_64 (h : CDCACMHandle) (u : Usb) (ep : Endpoint) :
  readhandle h = Some ep ->
  (forall chunk s',
     CDCACMHandle.read_chunk (h, u) = (Return chunk, s') ->
     length chunk = 64 /\
     exists pieces p,
       rx u = (Data <$> pieces) ++ Data p :: rx s'.2 /\
       chunk = concat pieces ++ p /\
       trace s'.2 =
         trace u ++ partial_reads ep 0 pieces
           ++ [EvRead ep (64 - Z.of_nat (length (concat pieces)));
               printed_read chunk]) /\
  (forall pieces p rest,
     rx u = (Data <$> pieces) ++ Data p :: rest ->
     length (concat pieces) < 64 ->
     (length (concat pieces ++ p) = 64 ->
      exists s',
        CDCACMHandle.read_chunk (h, u) = (Return (concat pieces ++ p), s') /\
        rx s'.2 = rest) /\
     (64 < length (concat pieces ++ p) ->
      exists s',
        CDCACMHandle.read_chunk (h, u) =
          (Raise (chunk_size_error (length (concat pieces ++ p))), s'))) /\
  (forall pieces,
     rx u = Data <$> pieces ->
     length (concat pieces) < 64 ->
     exists s', CDCACMHandle.read_chunk (h, u) = (Blocked, s')).
Proof.
  intros Hrh. rewrite (read_chunk_unfold h u ep Hrh). split; [|split].
  - intros chunk s' H.
    destruct (CDCACMHandle.read_loop ep (rx u) [] (trace u))
      as [[c|e|] [pending tr]] eqn:Hloop; try discriminate.
    injection H as <- <-.
    apply read_loop_return_inv in Hloop as (pieces & p & -> & -> & Hlen & ->).
    split; [done|].
    exists pieces, p. simpl. by rewrite <- !app_assoc.
  - intros pieces p rest H Hlt. split; intros Hlen.
    + rewrite H, read_loop_partial by done. simpl.
      rewrite bool_decide_false by lia. rewrite bool_decide_true by done.
      eauto.
    + rewrite H, read_loop_partial by done. simpl.
      rewrite !bool_decide_false by lia. eauto.
  - intros pieces H Hlt.
    rewrite H, <- (app_nil_r (Data <$> pieces)), read_loop_partial by done.
    simpl. eauto.
Qed.

Lemma read_chunk_exactly_64_witness :
  readhandle sample_open = Some sample_in /\
  exists s',
    CDCACMHandle.read_chunk
      (sample_open,
       sample_usb [Data (replicate 10 x01); Data (replicate 54 x02)]) =
    (Return (replicate 10 x01 ++ replicate 54 x02), s') /\
    rx s'.2 = [].
Proof.
  split; [reflexivity|].
  destruct (read_chunk_exactly_64 sample_open
              (sample_usb [Data (replicate 10 x01); Data (replicate 54 x02)])
              sample_in eq_refl) as (_ & H & _).
  destruct (H [replicate 10 x01] (replicate 54 x02) [] eq_refl) as [Hexact _].
  - simpl. lia.
  - apply Hexact. reflexivity.
Defined.

(** ** [write_chunk] *)

(** C2. On an open channel, [write_chunk data] raises the chunk-size
    [TransportException] if and only if [data] is not 64 bytes long, and then
    nothing is written; with 64 bytes it issues one write of [data] to the
    OUT endpoint and no other request, and its outcome is the outcome of that
    write: a refused write is not tried again. *)
Theorem write_chunk_framing (h : CDCACMHandle) (u : Usb) (ep : Endpoint)
    (data : list byte) :
  writehandle h = Some ep ->
  ((CDCACMHandle.write_chunk data (h, u)).1 =
     Raise (chunk_size_error (length data)) <->
   length data ≠ 64) /\
  (length data ≠ 64 ->
   (CDCACMHandle.write_chunk data (h, u)).2 = (h, emit (printed_write data) u)) /\
  (length data = 64 ->
   CDCACMHandle.write_chunk data (h, u) =
     (match fault (device h) (EvWrite ep data) with
      | Some f => Raise (usb_exn f)
      | None => Return tt
      end,
      (h, emit (EvWrite ep data) (emit (printed_write data) u)))).
Proof.
  intros Hwh.
  unfold CDCACMHandle.write_chunk, request, io, bind, gets, modify.
  cbn [fst snd]. rewrite Hwh.
  case_bool_decide as Hlen; cbn [fst snd].
  - split; [done|]. split; [done|]. intros ?; lia.
  - assert (length data = 64) as Hlen' by lia.
    destruct (fault (device h) (EvWrite ep data)) as [f|] eqn:Hf;
      (split; [|split; [lia|done]]);
      (split; [|lia]); simpl; try destruct f; discriminate.
Qed.

Lemma write_chunk_framing_witness :
  writehandle sample_open = Some sample_out /\
  CDCACMHandle.write_chunk (replicate 64 x2a) (sample_open, sample_usb []) =
    (Return tt,
     (sample_open,
      emit (EvWrite sample_out (replicate 64 x2a))
        (emit (printed_write (replicate 64 x2a)) (sample_usb [])))) /\
  (CDCACMHandle.write_chunk (replicate 3 x2a) (sample_open, sample_usb [])).1 =
    Raise (chunk_size_error 3).
Proof.
  destruct (write_chunk_framing sample_open (sample_usb []) sample_out
              (replicate 64 x2a) eq_refl) as (_ & _ & H64).
  destruct (write_chunk_framing sample_open (sample_usb []) sample_out
              (replicate 3 x2a) eq_refl) as (H3 & _ & _).
  split; [reflexivity|]. split.
  - apply H64. reflexivity.
  - apply H3. simpl. lia.
Defined.

(** ** [open] *)

Lemma request_ok d ev h u :
  fault d ev = None ->
  request d ev (h, u) = (Return tt, (h, emit ev u)).
Proof. intros Hf. unfold request, io, bind, modify. simpl. by rewrite Hf. Qed.

Lemma request_refused d ev f h u :
  fault d ev = Some f ->
  request d ev (h, u) = (Raise (usb_exn f), (h, emit ev u)).
Proof. intros Hf. unfold request, io, bind, modify. simpl. by rewrite Hf. Qed.

Lemma detach_if_active_ok d idx h u :
  discovery_ok d ->
  CDCACMHandle.detach_if_active d idx (h, u) = (Return tt, (h, detached idx u)).
Proof.
  intros Hok.
  unfold CDCACMHandle.detach_if_active, is_kernel_driver_active,
    detach_kernel_driver, bind at 1 2.
  rewrite request_ok by (by apply Hok). unfold gets. cbn [fst snd].
  unfold detached. simpl.
  destruct (Z_mem idx (kernel_driver u)); [|done].
  unfold bind. rewrite request_ok by (by apply Hok).
  unfold modify, emit. simpl. by rewrite <- app_assoc.
Qed.

Lemma control_loop_ok d ifaces control h u :
  discovery_ok d ->
  CDCACMHandle.control_loop d ifaces control (h, u) =
  (Return match first_comm ifaces with
          | Some c => Some c
          | None => match last ifaces with
                    | Some l => Some l
                    | None => control
                    end
          end,
   (h, match first_comm ifaces with
       | Some c => detached (index c) u
       | None => u
       end)).
Proof.
  intros Hok. revert control.
  induction ifaces as [|i ifaces IH]; intros control; [done|].
  unfold first_comm. simpl. unfold is_comm at 1 3.
  destruct (bInterfaceClass i =? CLASS_COMM)%Z.
  - unfold bind. by rewrite detach_if_active_ok.
  - rewrite IH. unfold first_comm.
    destruct (find is_comm ifaces); [done|].
    rewrite last_cons. by destruct (last ifaces).
Qed.

Lemma assigned_cons e eps h :
  assigned (e :: eps) h =
  assigned eps (if is_in e then set_readhandle e h else set_writehandle e h).
Proof.
  unfold assigned, last_in, last_out. simpl. unfold is_out at 1.
  destruct (is_in e); simpl; rewrite ?last_cons;
    by destruct (last (List.filter is_in eps)),
                (last (List.filter is_out eps)).
Qed.

Lemma endpoint_loop_ok eps h u :
  CDCACMHandle.endpoint_loop eps (h, u) = (Return tt, (assigned eps h, u)).
Proof.
  revert h. induction eps as [|e eps IH]; intros h.
  - by destruct h.
  - rewrite assigned_cons. simpl. unfold bind, update_self, modify.
    fold (is_in e). destruct (is_in e); simpl; by rewrite IH.
Qed.

Lemma cdcdata_loop_ok d ifaces h u :
  discovery_ok d ->
  CDCACMHandle.cdcdata_loop d ifaces (h, u) =
  (Return tt,
   match first_data ifaces with
   | Some i => (assigned (endpoints i) h, detached (index i) u)
   | None => (h, u)
   end).
Proof.
  intros Hok. induction ifaces as [|i ifaces IH]; [done|].
  unfold first_data. simpl. unfold is_data at 1.
  destruct (bInterfaceClass i =? CLASS_DATA)%Z; [|done].
  unfold bind. rewrite detach_if_active_ok by done.
  by rewrite endpoint_loop_ok.
Qed.

(** [open], when the discovery requests are answered, in closed form. *)
Lemma open_unfold h u :
  discovery_ok (device h) ->
  let d := device h in
  let h' := match first_data (configuration d) with
            | Some i => assigned (endpoints i) h
            | None => h
            end in
  CDCACMHandle.open (h, u) =
  match readhandle h', writehandle h' with
  | Some _, Some _ =>
      (Return tt,
       (h', line_configured d (control_of (configuration d)) (discovered d u)))
  | _, _ => (Raise cannot_open, (h', discovered d u))
  end.
Proof.
  intros Hok d h'. subst d h'.
  unfold CDCACMHandle.open, get_active_configuration.
  unfold bind at 1. unfold gets at 1. cbn [fst snd].
  unfold bind at 1. unfold bind at 1.
  rewrite request_ok by (by apply Hok). unfold ret at 1.
  unfold bind at 1. rewrite control_loop_ok by done.
  unfold bind at 1. unfold bind at 1.
  rewrite request_ok by (by apply Hok). unfold ret at 1.
  unfold bind at 1. rewrite cdcdata_loop_ok by done.
  unfold discovered, control_of.
  set (cfg := configuration (device h)).
  set (u2 := emit EvGetActiveConfiguration
               match first_comm cfg with
               | Some c => detached (index c) (emit EvGetActiveConfiguration u)
               | None => emit EvGetActiveConfiguration u
               end).
  assert (forall hh uu,
    (match first_data cfg with
     | Some i => (assigned (endpoints i) hh, detached (index i) uu)
     | None => (hh, uu)
     end) =
    (match first_data cfg with
     | Some i => assigned (endpoints i) hh
     | None => hh
     end,
     match first_data cfg with
     | Some i => detached (index i) uu
     | None => uu
     end)) as -> by (intros; by destruct (first_data cfg)).
  set (h' := match first_data cfg with
             | Some i => assigned (endpoints i) h
             | None => h
             end).
  set (u3 := match first_data cfg with
             | Some i => detached (index i) u2
             | None => u2
             end).
  assert (device h' = device h) as Hdev
    by (subst h'; by destruct (first_data cfg)).
  unfold bind at 1. unfold gets at 1. cbn [fst snd].
  unfold bind at 1. unfold gets at 1. cbn [fst snd].
  unfold bind at 1.
  destruct (readhandle h') as [r|]; [destruct (writehandle h') as [w|]|];
    simpl; try done.
  unfold try_except_pass, ctrl_transfer, line_configured.
  assert (match first_comm cfg with
          | Some c => Some c
          | None => match last cfg with
                    | Some l => Some l
                    | None => None
                    end
          end =
          match first_comm cfg with
          | Some c => Some c
          | None => last cfg
          end) as -> by (destruct (first_comm cfg); [done|by destruct (last cfg)]).
  destruct (match first_comm cfg with
            | Some c => Some c
            | None => last cfg
            end) as [c|]; [|done].
  unfold bind at 1. unfold ret at 1. unfold bind at 1.
  change (Z.lor 1 2) with (Z.lor DTR RTS).
  fold (set_control_line_state (index c)).
  destruct (fault (device h) (set_control_line_state (index c))) as [f|] eqn:Hf.
  - by rewrite (request_refused _ _ f).
  - rewrite request_ok by done. unfold bind at 1. unfold ret at 1.
    unfold CDCACMHandle.line_coding. fold (set_line_coding (index c)).
    destruct (fault (device h) (set_line_coding (index c))) as [f|] eqn:Hf2.
    + by rewrite (request_refused _ _ f).
    + by rewrite request_ok.
Qed.



Lemma rx_discovered d u : rx (discovered d u) = rx u.
Proof.
  unfold discovered, detached.
  destruct (first_data (configuration d)), (first_comm (configuration d));
    simpl; repeat (destruct (Z_mem _ _); simpl); done.
Qed.

(** C4, as the code has it.  With the discovery requests answered, [open] on
    a fresh handle succeeds when the first data-class interface of the
    configuration has an IN and an OUT endpoint, whether or not there is a
    communications-class interface, and then [readhandle] is the last IN
    endpoint of that interface and [writehandle] its last OUT endpoint; it
    raises the [IOError] when there is no data-class interface or the first
    one lacks an IN or an OUT endpoint. *)
Theorem open_assigns_endpoints (d : Device) (debug : bool) (u : Usb) :
  discovery_ok d ->
  (forall i r w,
     first_data (configuration d) = Some i ->
     last_in (endpoints i) = Some r ->
     last_out (endpoints i) = Some w ->
     exists h' u',
       CDCACMHandle.open (CDCACMHandle.init d debug, u) =
         (Return tt, (h', u')) /\
       readhandle h' = Some r /\ writehandle h' = Some w) /\
  (first_data (configuration d) = None \/
   (exists i, first_data (configuration d) = Some i /\
              (last_in (endpoints i) = None \/
               last_out (endpoints i) = None)) ->
   exists s',
     CDCACMHandle.open (CDCACMHandle.init d debug, u) = (Raise cannot_open, s')).
Proof.
  intros Hok.
  pose proof (open_unfold (CDCACMHandle.init d debug) u Hok) as Hopen.
  cbn zeta in Hopen. change (device (CDCACMHandle.init d debug)) with d in Hopen.
  rewrite Hopen. clear Hopen. split.
  - intros i r w -> Hr Hw. unfold assigned. simpl. rewrite Hr, Hw. eauto.
  - intros [-> | (i & -> & [Hr | Hw])]; simpl.
    + eauto.
    + rewrite Hr. destruct (last_out (endpoints i)); eauto.
    + rewrite Hw. destruct (last_in (endpoints i)); eauto.
Qed.

Lemma sample_discovery_ok ifaces :
  discovery_ok (sample_device ifaces no_fault).
Proof. intros ev _. reflexivity. Defined.

Lemma open_assigns_endpoints_witness :
  discovery_ok (sample_device [sample_comm; sample_data] no_fault) /\
  exists h' u',
    CDCACMHandle.open
      (CDCACMHandle.init (sample_device [sample_comm; sample_data] no_fault)
         false, sample_usb []) = (Return tt, (h', u')) /\
    readhandle h' = Some sample_in /\ writehandle h' = Some sample_out.
Proof.
  split; [apply sample_discovery_ok|].
  apply (open_assigns_endpoints
           (sample_device [sample_comm; sample_data] no_fault) false
           (sample_usb []) (sample_discovery_ok _)) with (i := sample_data);
    reflexivity.
Defined.

(** C4, as the spec has it, fails: a configuration with no
    communications-class interface, whose data-class interface has both
    endpoints, is opened without error. *)
Lemma open_without_comm_interface :
  first_comm (configuration (sample_device [sample_data] no_fault)) = None /\
  CDCACMHandle.open
    (CDCACMHandle.init (sample_device [sample_data] no_fault) false,
     sample_usb []) =
  (Return tt,
   (set_writehandle sample_out
      (set_readhandle sample_in
         (CDCACMHandle.init (sample_device [sample_data] no_fault) false)),
    {| kernel_driver := [0%Z]; rx := [];
       trace := [EvGetActiveConfiguration; EvGetActiveConfiguration;
                 EvIsKernelDriverActive 1; EvDetachKernelDriver 1;
                 set_control_line_state 1; set_line_coding 1] |})).
Proof. split; reflexivity. Qed.




(** ** [enumerate] of stm32f4.py *)

Section Stm32f4Facts.

Import Stm32f4.

Variable STM32F4_VENDOR_IDS : gset Z.
Variables DEVICE_NOT_INITIALIZED DEVICE_NOT_READY UNKNOWN_ERROR : Z.
Variable common_err_msgs_enumerate : string.
Variable STM32F4Client : string -> string -> exn + Client.
Variable get_xpub_fingerprint_hex : string -> exn + string.

Local Abbreviation probe :=
  (Stm32f4.probe DEVICE_NOT_INITIALIZED STM32F4Client get_xpub_fingerprint_hex).
Local Abbreviation handle_errors :=
  (Stm32f4.handle_errors DEVICE_NOT_READY UNKNOWN_ERROR).
Local Abbreviation probed :=
  (Stm32f4.probed DEVICE_NOT_INITIALIZED DEVICE_NOT_READY UNKNOWN_ERROR
     common_err_msgs_enumerate STM32F4Client get_xpub_fingerprint_hex).
Local Abbreviation failed :=
  (Stm32f4.failed DEVICE_NOT_READY UNKNOWN_ERROR common_err_msgs_enumerate).
Local Abbreviation iteration :=
  (Stm32f4.iteration STM32F4_VENDOR_IDS DEVICE_NOT_INITIALIZED
     DEVICE_NOT_READY UNKNOWN_ERROR common_err_msgs_enumerate STM32F4Client
     get_xpub_fingerprint_hex).
Local Abbreviation for_each :=
  (Stm32f4.for_each STM32F4_VENDOR_IDS DEVICE_NOT_INITIALIZED
     DEVICE_NOT_READY UNKNOWN_ERROR common_err_msgs_enumerate STM32F4Client
     get_xpub_fingerprint_hex).
Local Abbreviation enumerate :=
  (Stm32f4.enumerate STM32F4_VENDOR_IDS DEVICE_NOT_INITIALIZED
     DEVICE_NOT_READY UNKNOWN_ERROR common_err_msgs_enumerate STM32F4Client
     get_xpub_fingerprint_hex).

(** Run the monadic code one layer further. *)
Ltac run :=
  cbv beta iota delta
    [bind ret raise modify gets getitem setitem call set_client lift as_str
     Stm32f4.handle_errors Stm32f4.probe d_data client calls
     Value_eqb truthy fst snd];
  rewrite ?lookup_insert_eq;
  repeat (rewrite lookup_insert_ne by done; rewrite ?lookup_insert_eq).

Lemma probe_table password path log :
  handle_errors common_err_msgs_enumerate Fallthrough (probe password)
    {| d_data := base path; client := None; calls := log |} =
  (Return (flow (probed password path)),
   {| d_data := record (probed password path);
      client := held (probed password path);
      calls := log ++ (pair path <$> made (probed password path)) |}).
Proof.
  unfold Stm32f4.probed, Stm32f4.failed, flagged, base, locked,
    passphrase_needed.
  run.
  destruct (STM32F4Client path password) as [e|c]; run; [done|].
  destruct (init_device c) as [e|ft]; run; [by rewrite <- !app_assoc|].
  destruct (str_in "STMicroelectronics" (vendor ft)); cbn [negb]; run;
    [|by rewrite <- !app_assoc].
  destruct (path =? "udp:127.0.0.1:21324")%string; run;
    (destruct (pin_protection ft && negb (pin_cached ft)); run;
     [by rewrite <- !app_assoc|]);
    (destruct (passphrase_protection ft), (password =? "")%string;
     cbn [negb andb]; run; try by rewrite <- !app_assoc);
    (destruct (initialized ft); run; [|by rewrite <- !app_assoc]);
    (destruct (get_pubkey_at_path c "m/0h") as [e|xpub]; run;
     [by rewrite <- !app_assoc|]);
    (destruct (get_xpub_fingerprint_hex xpub) as [e|fp]; run;
     by rewrite <- !app_assoc).
Qed.

(** One iteration of the loop, from the table. *)
Lemma iteration_table password dev results log :
  iteration password dev (results, log) =
  if bool_decide (get_usb_vendor_id dev ∉ STM32F4_VENDOR_IDS ∪ {[ (-1)%Z ]})
  then (Return tt, (results, log))
  else
    let p := probed password (get_path dev) in
    let log1 := log ++ (pair (get_path dev) <$> made p) in
    match flow p with
    | Continue => (Return tt, (results, log1))
    | Fallthrough =>
        match held p with
        | Some c =>
            match close c with
            | Some e => (Raise e, (results, log1 ++ [(get_path dev, Close)]))
            | None =>
                (Return tt,
                 (results ++ [record p], log1 ++ [(get_path dev, Close)]))
            end
        | None => (Return tt, (results ++ [record p], log1))
        end
    end.
Proof.
  unfold Stm32f4.iteration. case_bool_decide; [done|].
  fold (base (get_path dev)). rewrite probe_table. cbn zeta.
  by destruct (flow (probed password (get_path dev))).
Qed.

Lemma vendor_id_accepted dev :
  get_usb_vendor_id dev ∈ STM32F4_VENDOR_IDS ∪ {[ (-1)%Z ]} ->
  bool_decide (get_usb_vendor_id dev ∉ STM32F4_VENDOR_IDS ∪ {[ (-1)%Z ]})
  = false.
Proof. intros Hin. by apply bool_decide_eq_false_2; intros Hnot. Qed.

(** The probe never closes the client itself, and holds the client that
    was constructed. *)
Lemma made_no_close password path :
  Close ∉ made (probed password path).
Proof.
  unfold Stm32f4.probed.
  repeat match goal with
         | |- context [match ?x with inl _ => _ | inr _ => _ end] =>
             destruct x
         | |- context [if ?b then _ else _] => destruct b
         end;
    cbn [made app]; rewrite ?not_elem_of_cons; repeat split; try done;
    apply not_elem_of_nil.
Qed.

Lemma held_constructed password path c :
  STM32F4Client path password = inr c ->
  held (probed password path) = Some c.
Proof.
  intros Hc. unfold Stm32f4.probed. rewrite Hc.
  repeat match goal with
         | |- context [match ?x with inl _ => _ | inr _ => _ end] =>
             destruct x
         | |- context [if ?b then _ else _] => destruct b
         end; done.
Qed.

Lemma flow_continue password path :
  flow (probed password path) = Continue <->
  exists c ft,
    STM32F4Client path password = inr c /\ init_device c = inr ft /\
    str_in "STMicroelectronics" (vendor ft) = false.
Proof.
  unfold Stm32f4.probed. split.
  - destruct (STM32F4Client path password) as [e|c]; [done|].
    destruct (init_device c) as [e|ft] eqn:Hft; [done|].
    destruct (str_in "STMicroelectronics" (vendor ft)) eqn:Hv; [|by eauto].
    cbn [negb].
    repeat match goal with
           | |- context [match ?x with inl _ => _ | inr _ => _ end] =>
               destruct x
           | |- context [if ?b then _ else _] => destruct b
           end; done.
  - intros (c & ft & -> & -> & ->). done.
Qed.

(** C3, where the code departs from it.  A device that passes the vendor-id
    test, has its client constructed and initialised, and reports a vendor
    string without the manufacturer token, is left by [continue]: the
    client that was opened is not closed, and nothing is appended.  An
    [enumerate] over that one device returns the empty list having called
    the constructor, [init_device] and [print], and no [close]. *)
Theorem skipped_device_is_not_closed password dev results log c ft :
  get_usb_vendor_id dev ∈ STM32F4_VENDOR_IDS ∪ {[ (-1)%Z ]} ->
  STM32F4Client (get_path dev) password = inr c ->
  init_device c = inr ft ->
  str_in "STMicroelectronics" (vendor ft) = false ->
  iteration password dev (results, log) =
  (Return tt,
   (results,
    log ++ [(get_path dev, NewClient password); (get_path dev, InitDevice);
            (get_path dev, Print (vendor ft))])) /\
  enumerate [dev] password =
  (Return [],
   [(get_path dev, NewClient password); (get_path dev, InitDevice);
    (get_path dev, Print (vendor ft))]) /\
  (get_path dev, Close) ∉
    [(get_path dev, NewClient password); (get_path dev, InitDevice);
     (get_path dev, Print (vendor ft))].
Proof.
  intros Hid Hc Hft Hv.
  assert (forall results0 log0,
    iteration password dev (results0, log0) =
    (Return tt,
     (results0,
      log0 ++ [(get_path dev, NewClient password); (get_path dev, InitDevice);
               (get_path dev, Print (vendor ft))]))) as Hskip.
  { intros results0 log0.
    rewrite iteration_table, vendor_id_accepted by done. cbn zeta.
    unfold Stm32f4.probed. by rewrite Hc, Hft, Hv. }
  split; [apply Hskip|]. split.
  - unfold Stm32f4.enumerate, Stm32f4.for_each, bind. by rewrite Hskip.
  - rewrite !not_elem_of_cons. repeat split; try done. apply not_elem_of_nil.
Qed.

(** On every other path of a device whose client was constructed, the
    client is closed exactly once, after the probe and before the record
    is appended. *)
Lemma probed_device_is_closed_once password dev results log c :
  get_usb_vendor_id dev ∈ STM32F4_VENDOR_IDS ∪ {[ (-1)%Z ]} ->
  STM32F4Client (get_path dev) password = inr c ->
  (forall ft, init_device c = inr ft ->
              str_in "STMicroelectronics" (vendor ft) = true) ->
  exists r results' during,
    iteration password dev (results, log) =
      (r, (results', log ++ (pair (get_path dev) <$> during)
                         ++ [(get_path dev, Close)])) /\
    (Close ∉ during) /\
    ((r = Return tt /\ close c = None /\
      results' = results ++ [record (probed password (get_path dev))]) \/
     (exists e, close c = Some e /\ r = Raise e /\ results' = results)).
Proof.
  intros Hid Hc Hvendor.
  rewrite iteration_table, vendor_id_accepted by done. cbn zeta.
  rewrite (held_constructed _ _ c) by done.
  destruct (flow (probed password (get_path dev))) eqn:Hflow.
  - destruct (close c) as [e|] eqn:Hclose;
      eexists _, _, (made (probed password (get_path dev)));
      (split; [by rewrite <- app_assoc|]);
      (split; [apply made_no_close|]); [right|left]; eauto.
  - apply flow_continue in Hflow as (c' & ft & Hc' & Hft & Hv).
    rewrite Hc in Hc'. injection Hc' as <-.
    rewrite (Hvendor ft Hft) in Hv. done.
Qed.

(** ** The PIN lock *)



(** ** The records *)

Lemma record_identified password path :
  identified path (record (probed password path)).
Proof.
  unfold Stm32f4.probed, identified.
  repeat match goal with
         | |- context [match ?x with inl _ => _ | inr _ => _ end] =>
             destruct x
         | |- context [if ?b then _ else _] => destruct b
         end;
    cbn [record]; unfold Stm32f4.failed, flagged, base;
    try destruct (path =? "udp:127.0.0.1:21324")%string;
    repeat split;
    repeat (rewrite lookup_insert_ne by done);
    rewrite lookup_insert_eq; by eauto.
Qed.

Lemma for_each_identified password devs results log r results' log' :
  for_each password devs (results, log) = (r, (results', log')) ->
  forall d, d ∈ results' ->
    d ∈ results \/
    exists dev, dev ∈ devs /\ identified (get_path dev) d.
Proof.
  revert results log.
  induction devs as [|dev devs IH]; intros results log Hrun d Hd.
  - injection Hrun as <- <- <-. by left.
  - cbn [Stm32f4.for_each] in Hrun. unfold bind in Hrun.
    rewrite iteration_table in Hrun. cbn zeta in Hrun.
    assert (forall results1 log1,
      for_each password devs (results1, log1) = (r, (results', log')) ->
      (forall x, x ∈ results1 ->
         x ∈ results \/ identified (get_path dev) x) ->
      d ∈ results \/
      exists dev', dev' ∈ dev :: devs /\ identified (get_path dev') d)
      as Hrest.
    { intros results1 log1 Hrun1 Hsub.
      destruct (IH _ _ Hrun1 d Hd) as [Hin | (dev' & Hdev' & Hid)].
      - destruct (Hsub d Hin) as [? | ?]; [by left|].
        right. exists dev. split; [apply list_elem_of_here|done].
      - right. exists dev'. split; [by apply list_elem_of_further|done]. }
    assert (forall x,
      x ∈ results ++ [record (probed password (get_path dev))] ->
      x ∈ results \/ identified (get_path dev) x) as Happended.
    { intros x [Hx | Hx%list_elem_of_singleton]%elem_of_app; [by left|].
      right. subst x. apply record_identified. }
    case_bool_decide.
    { eapply Hrest; [exact Hrun|]. by left. }
    destruct (flow (probed password (get_path dev))).
    + destruct (held (probed password (get_path dev))) as [c|].
      * destruct (close c).
        -- injection Hrun as <- <- <-. by left.
        -- eapply Hrest; [exact Hrun|]. exact Happended.
      * eapply Hrest; [exact Hrun|]. exact Happended.
    + eapply Hrest; [exact Hrun|]. by left.
Qed.

(** C10. Every record [enumerate] returns, error-tagged or not, belongs to
    one of the enumerated devices and has the key [type] with the value
    ['stm32f4'], the key [model], and the key [path] with the path of that
    device. *)
Theorem enumerate_records_identified devs password results log :
  enumerate devs password = (Return results, log) ->
  forall d, d ∈ results ->
    exists dev,
      dev ∈ devs /\
      d !! "type" = Some (VStr "stm32f4") /\
      is_Some (d !! "model") /\
      d !! "path" = Some (VStr (get_path dev)).
Proof.
  unfold Stm32f4.enumerate. intros Hrun d Hd.
  destruct (for_each password devs ([], [])) as [r [results' log']] eqn:Hloop.
  destruct r; try discriminate. injection Hrun as <- <-.
  destruct (for_each_identified _ _ _ _ _ _ _ Hloop d Hd)
    as [Hnil | (dev & Hdev & Hid)].
  - by apply elem_of_nil in Hnil.
  - by exists dev.
Qed.

(** [enumerate] returns its list unless a [close] raises. *)
Lemma for_each_returns password devs results log :
  (forall dev c, dev ∈ devs ->
     STM32F4Client (get_path dev) password = inr c -> close c = None) ->
  exists results' log',
    for_each password devs (results, log) = (Return tt, (results', log')).
Proof.
  revert results log.
  induction devs as [|dev devs IH]; intros results log Hclose; [by eexists _, _|].
  cbn [Stm32f4.for_each]. unfold bind. rewrite iteration_table. cbn zeta.
  assert (forall results1 log1, exists results' log',
    for_each password devs (results1, log1) = (Return tt, (results', log')))
    as Hrest.
  { intros. apply IH. intros dev' c Hin. apply Hclose.
    by apply list_elem_of_further. }
  case_bool_decide; [apply Hrest|].
  destruct (flow (probed password (get_path dev))); [|apply Hrest].
  destruct (held (probed password (get_path dev))) as [c|] eqn:Hheld;
    [|apply Hrest].
  rewrite (Hclose dev c); [apply Hrest|apply list_elem_of_here|].
  destruct (STM32F4Client (get_path dev) password) as [e|c'] eqn:Hc.
  - unfold Stm32f4.probed in Hheld. by rewrite Hc in Hheld.
  - rewrite (held_constructed _ _ c' Hc) in Hheld. congruence.
Qed.

End Stm32f4Facts.

(** *** Concrete runs of [enumerate] *)

Lemma sample_vendor_accepted :
  Stm32f4.get_usb_vendor_id sample_transport ∈ sample_vendor_ids ∪ {[ (-1)%Z ]}.
Proof. apply elem_of_union_l, elem_of_singleton. reflexivity. Defined.

Lemma skipped_device_is_not_closed_witness :
  str_in "STMicroelectronics" "Other" = false /\
  sample_enumerate (sample_features "Other" false false) [sample_transport] ""
  = (Return [],
     [("cdcacm:001:004", Stm32f4.NewClient "");
      ("cdcacm:001:004", Stm32f4.InitDevice);
      ("cdcacm:001:004", Stm32f4.Print "Other")]).
Proof.
  split; [reflexivity|].
  apply (skipped_device_is_not_closed sample_vendor_ids (-18) (-12) (-13)
           sample_msg (fun _ _ => inr (sample_client
                                         (sample_features "Other" false false)))
           sample_fingerprint "" sample_transport [] []
           (sample_client (sample_features "Other" false false))
           (sample_features "Other" false false)
           sample_vendor_accepted eq_refl eq_refl eq_refl).
Defined.



Lemma enumerate_records_identified_witness :
  sample_enumerate (sample_features "STMicroelectronics" true false)
    [sample_transport] "" =
  (Return [sample_locked_record],
   [("cdcacm:001:004", Stm32f4.NewClient "");
    ("cdcacm:001:004", Stm32f4.InitDevice);
    ("cdcacm:001:004", Stm32f4.Print "STMicroelectronics");
    ("cdcacm:001:004", Stm32f4.Close)]) /\
  exists dev,
    dev ∈ [sample_transport] /\
    sample_locked_record !! "type" = Some (Stm32f4.VStr "stm32f4") /\
    is_Some (sample_locked_record !! "model") /\
    sample_locked_record !! "path" = Some (Stm32f4.VStr (Stm32f4.get_path dev)).
Proof.
  assert (sample_enumerate (sample_features "STMicroelectronics" true false)
            [sample_transport] "" =
          (Return [sample_locked_record],
           [("cdcacm:001:004", Stm32f4.NewClient "");
            ("cdcacm:001:004", Stm32f4.InitDevice);
            ("cdcacm:001:004", Stm32f4.Print "STMicroelectronics");
            ("cdcacm:001:004", Stm32f4.Close)])) as Hrun
    by (vm_compute; reflexivity).
  split; [exact Hrun|].
  apply (enumerate_records_identified sample_vendor_ids (-18) (-12) (-13)
           sample_msg _ sample_fingerprint [sample_transport] "" _ _ Hrun).
  apply list_elem_of_here.
Defined.

(** ** [close] *)

(** C5, where the code departs from it.  [close] returns at once and changes
    nothing: the endpoints stay assigned, no request reaches the device, no
    interface is released.  Being without effect, it cannot fail and a second
    call equals the first. *)
Theorem close_releases_nothing (h : CDCACMHandle) (u : Usb) :
  CDCACMHandle.close (h, u) = (Return tt, (h, u)) /\
  (CDCACMHandle.close ;; CDCACMHandle.close) (h, u) = CDCACMHandle.close (h, u).
Proof. split; reflexivity. Qed.

(** After [open] on the sample device, [close] leaves both endpoints assigned
    and adds nothing to the requests made. *)
Lemma close_after_open :
  let opened :=
    (CDCACMHandle.open
       (CDCACMHandle.init (sample_device [sample_comm; sample_data] no_fault)
          false, sample_usb [])).2 in
  let closed := (CDCACMHandle.close opened).2 in
  readhandle closed.1 = Some sample_in /\
  writehandle closed.1 = Some sample_out /\
  trace closed.2 = trace opened.2.
Proof. repeat split. Qed.

(** ** [CDCACMTransport.enumerate] *)

Lemma usb_core_find_none usb_bus v p :
  (forall d, d ∈ usb_bus -> ~ (idVendor d = v /\ idProduct d = p)) ->
  usb_core_find usb_bus v p = None.
Proof.
  unfold usb_core_find.
  induction usb_bus as [|d usb_bus IH]; intros Hnone; [done|].
  simpl.
  destruct (idVendor d =? v)%Z eqn:Hv, (idProduct d =? p)%Z eqn:Hp; simpl;
    try (apply IH; intros d' Hd'; apply Hnone; by apply list_elem_of_further).
  exfalso. apply (Hnone d); [apply list_elem_of_here|]. lia.
Qed.

(** C9. When no device of the bus has the vendor and product identifiers of
    [DEV_STM32F4], [enumerate] returns the empty list, raises nothing and
    constructs no handle. *)
Theorem enumerate_no_match (ProtocolV1_VERSION : Z) (DEV_STM32F4 : Z * Z)
    (usb_bus : list Device) (heap : Heap) :
  (forall d, d ∈ usb_bus ->
     ~ (idVendor d = DEV_STM32F4.1 /\ idProduct d = DEV_STM32F4.2)) ->
  CDCACMTransport.enumerate ProtocolV1_VERSION DEV_STM32F4 usb_bus heap =
  (Return [], heap).
Proof.
  intros Hnone. unfold CDCACMTransport.enumerate.
  by rewrite usb_core_find_none.
Qed.

Lemma enumerate_no_match_witness :
  CDCACMTransport.enumerate 1 (0x0483, 0x5740)%Z
    [{| bus := 1; address := 2; idVendor := 0x1209; idProduct := 0x53c1;
        bNumConfigurations := 1; configuration := []; fault := no_fault |}]
    [] = (Return [], []) /\
  CDCACMTransport.enumerate 1 (0x0483, 0x5740)%Z [] [] = (Return [], []).
Proof.
  split.
  - apply enumerate_no_match. intros d Hd%list_elem_of_singleton [Hv _].
    subst d. discriminate Hv.
  - apply enumerate_no_match. intros d Hd. by apply elem_of_nil in Hd.
Defined.

(** ** [find_debug] *)

(** C6, as the code has it.  [find_debug] never raises.  With a protocol
    version of 2 or more the transport it returns holds the very handle of
    the original and no handle is constructed.  Below 2 it constructs a new
    handle for the same device, bound to [DEBUG_INTERFACE] and
    [DEBUG_ENDPOINT], distinct from every handle there was, and returns a
    transport with [debug] set holding it.  Whether the device has a debug
    interface plays no part. *)
Theorem find_debug_channel (ProtocolV1_VERSION : Z) (self : CDCACMTransport.t)
    (heap : Heap) :
  ((2 <= CDCACMTransport.VERSION (CDCACMTransport.protocol self))%Z ->
   exists t',
     CDCACMTransport.find_debug ProtocolV1_VERSION self heap =
       (Return t', heap) /\
     CDCACMTransport.handle t' = CDCACMTransport.handle self /\
     CDCACMTransport.device t' = CDCACMTransport.device self) /\
  ((CDCACMTransport.VERSION (CDCACMTransport.protocol self) < 2)%Z ->
   exists t' h,
     CDCACMTransport.find_debug ProtocolV1_VERSION self heap =
       (Return t', heap ++ [h]) /\
     CDCACMTransport.handle t' = length heap /\
     (heap ++ [h]) !! CDCACMTransport.handle t' = Some h /\
     heap !! CDCACMTransport.handle t' = None /\
     (forall r, is_Some (heap !! r) ->
        r ≠ CDCACMTransport.handle t' /\ (heap ++ [h]) !! r = heap !! r) /\
     h = CDCACMHandle.init (CDCACMTransport.device self) true /\
     interface h = DEBUG_INTERFACE /\ endpoint h = DEBUG_ENDPOINT /\
     CDCACMTransport.debug t' = true /\
     CDCACMTransport.device t' = CDCACMTransport.device self).
Proof.
  unfold CDCACMTransport.find_debug. split; intros Hv.
  - assert ((CDCACMTransport.VERSION (CDCACMTransport.protocol self) >=? 2)%Z
            = true) as -> by lia.
    by eexists.
  - assert ((CDCACMTransport.VERSION (CDCACMTransport.protocol self) >=? 2)%Z
            = false) as -> by lia.
    eexists _, _. split; [reflexivity|]. simpl.
    split; [done|]. split.
    { rewrite lookup_app_r by done. by rewrite Nat.sub_diag. }
    split; [by apply lookup_ge_None_2|]. split; [|done].
    intros r Hr. pose proof (lookup_lt_is_Some_1 _ _ Hr).
    split; [lia|]. by rewrite lookup_app_l.
Qed.

Lemma find_debug_channel_witness :
  exists t' h,
    CDCACMTransport.find_debug 1 (bare_transport 1)
      [CDCACMHandle.init (sample_device [] no_fault) false] =
      (Return t', [CDCACMHandle.init (sample_device [] no_fault) false; h]) /\
    CDCACMTransport.handle t' = 1 /\
    interface h = DEBUG_INTERFACE /\ endpoint h = DEBUG_ENDPOINT /\
    CDCACMTransport.debug t' = true.
Proof.
  destruct (find_debug_channel 1 (bare_transport 1)
              [CDCACMHandle.init (sample_device [] no_fault) false])
    as [_ Hv1].
  destruct Hv1 as (t' & h & Hrun & Hhandle & _ & _ & _ & _ & Hi & He & Hd & _).
  - simpl. lia.
  - exists t', h. repeat split; assumption.
Defined.

(** The debug flag of what the version-2 branch returns. *)
Lemma find_debug_v2_flag (ProtocolV1_VERSION : Z) (self : CDCACMTransport.t)
    (heap : Heap) :
  (2 <= CDCACMTransport.VERSION (CDCACMTransport.protocol self))%Z ->
  exists t',
    CDCACMTransport.find_debug ProtocolV1_VERSION self heap = (Return t', heap) /\
    CDCACMTransport.debug t' = false.
Proof.
  intros Hv. unfold CDCACMTransport.find_debug.
  assert ((CDCACMTransport.VERSION (CDCACMTransport.protocol self) >=? 2)%Z
          = true) as -> by lia.
  by eexists.
Qed.

(** C6, as the spec has it, fails: on a device that exposes no debug
    interface [find_debug] returns a transport, for version 1 as for
    version 2. *)
Lemma find_debug_without_debug_interface :
  exposes_debug_interface (sample_device [] no_fault) = false /\
  CDCACMTransport.find_debug 1 (bare_transport 1)
    [CDCACMHandle.init (sample_device [] no_fault) false] =
  (Return {| CDCACMTransport.device := sample_device [] no_fault;
             CDCACMTransport.handle := 1;
             CDCACMTransport.debug := true;
             CDCACMTransport.protocol := CDCACMTransport.ProtocolV1 1 1 |},
   [CDCACMHandle.init (sample_device [] no_fault) false;
    CDCACMHandle.init (sample_device [] no_fault) true]) /\
  CDCACMTransport.find_debug 1 (bare_transport 2)
    [CDCACMHandle.init (sample_device [] no_fault) false] =
  (Return {| CDCACMTransport.device := sample_device [] no_fault;
             CDCACMTransport.handle := 0;
             CDCACMTransport.debug := false;
             CDCACMTransport.protocol := CDCACMTransport.ProtocolV1 1 0 |},
   [CDCACMHandle.init (sample_device [] no_fault) false]).
Proof. repeat split. Qed.


(** * Further properties of the transport *)

(** ** [read_chunk]: requests, failures, consecutive chunks *)

Lemma read_loop_events ep pending chunk tr :
  length chunk < 64 ->
  exists new,
    (CDCACMHandle.read_loop ep pending chunk tr).2.2 = tr ++ new /\
    Forall (read_event_ok ep) new.
Proof.
  revert chunk tr.
  induction pending as [|[p|f] pending IH]; intros chunk tr Hlt; simpl.
  - eexists. split; [reflexivity|].
    apply Forall_singleton. simpl. split; [done|lia].
  - assert (read_event_ok ep (EvRead ep (64 - Z.of_nat (length chunk))))
      as Hread by (simpl; split; [done|lia]).
    case_bool_decide as Hshort.
    + destruct (IH (chunk ++ p)
                  ((tr ++ [EvRead ep (64 - Z.of_nat (length chunk))])
                     ++ [EvSleepMs 1]) Hshort) as (new & -> & Hnew).
      exists (EvRead ep (64 - Z.of_nat (length chunk)) :: EvSleepMs 1 :: new).
      split; [by rewrite <- !app_assoc|].
      repeat apply Forall_cons_2; done.
    + case_bool_decide; simpl; eexists; (split; [reflexivity|]);
        by apply Forall_singleton.
  - eexists. split; [reflexivity|].
    apply Forall_singleton. simpl. split; [done|lia].
Qed.

(** X1. Whatever the endpoint delivers, [read_chunk] on an open channel asks the
    device for nothing but reads of its IN endpoint, each for at least 1 and
    at most 64 bytes, and otherwise only sleeps 1 ms and prints: it never
    asks for zero bytes, writes, or touches another endpoint. *)
Theorem read_chunk_only_reads (h : CDCACMHandle) (u : Usb) (ep : Endpoint) :
  readhandle h = Some ep ->
  exists new,
    trace (CDCACMHandle.read_chunk (h, u)).2.2 = trace u ++ new /\
    Forall (read_event_ok ep) new.
Proof.
  intros Hrh. rewrite (read_chunk_unfold h u ep Hrh).
  destruct (read_loop_events ep (rx u) [] (trace u)) as (new & Htr & Hnew);
    [simpl; lia|].
  destruct (CDCACMHandle.read_loop ep (rx u) [] (trace u))
    as [[c|e|] [pending tr]]; simpl in *; subst tr.
  - exists (new ++ [printed_read c]). split; [by rewrite app_assoc|].
    apply Forall_app. split; [done|]. by apply Forall_singleton.
  - by exists new.
  - by exists new.
Qed.

Lemma read_chunk_only_reads_witness :
  readhandle sample_open = Some sample_in /\
  exists new,
    trace (CDCACMHandle.read_chunk
             (sample_open,
              sample_usb [Data (replicate 10 x01); Data (replicate 60 x02)])).2.2
      = [] ++ new /\
    Forall (read_event_ok sample_in) new.
Proof.
  split; [reflexivity|].
  apply (read_chunk_only_reads sample_open
           (sample_usb [Data (replicate 10 x01); Data (replicate 60 x02)])
           sample_in eq_refl).
Defined.

(** X2. A failing [read_chunk] drops what it has read.  When the USB stack
    refuses a read after some pieces came, or a piece takes the chunk past
    64 bytes, the exception is raised, nothing is printed, and every delivery
    consumed so far, the overshooting piece included, is gone from the
    endpoint: the next read starts after it. *)
Theorem read_chunk_failure_discards (h : CDCACMHandle) (u : Usb)
    (ep : Endpoint) (pieces : list (list byte)) (rest : list Delivery) :
  readhandle h = Some ep ->
  length (concat pieces) < 64 ->
  (forall f,
     rx u = (Data <$> pieces) ++ Fault f :: rest ->
     CDCACMHandle.read_chunk (h, u) =
       (Raise (usb_exn f), (h, after_reads ep pieces rest u))) /\
  (forall p,
     rx u = (Data <$> pieces) ++ Data p :: rest ->
     64 < length (concat pieces ++ p) ->
     CDCACMHandle.read_chunk (h, u) =
       (Raise (chunk_size_error (length (concat pieces ++ p))),
        (h, after_reads ep pieces rest u))).
Proof.
  intros Hrh Hlt. split.
  - intros f Hrx. rewrite (read_chunk_unfold h u ep Hrh), Hrx.
    rewrite read_loop_partial by done. simpl.
    unfold after_reads. by rewrite <- app_assoc.
  - intros p Hrx Hover. rewrite (read_chunk_unfold h u ep Hrh), Hrx.
    rewrite read_loop_partial by done. simpl.
    rewrite !bool_decide_false by lia.
    unfold after_reads. by rewrite <- app_assoc.
Qed.

Lemma read_chunk_failure_discards_witness :
  readhandle sample_open = Some sample_in /\
  CDCACMHandle.read_chunk
    (sample_open,
     sample_usb [Data (replicate 10 x01); Data (replicate 60 x02);
                 Data (replicate 64 x03)]) =
  (Raise (chunk_size_error 70),
   (sample_open,
    after_reads sample_in [replicate 10 x01] [Data (replicate 64 x03)]
      (sample_usb [Data (replicate 10 x01); Data (replicate 60 x02);
                   Data (replicate 64 x03)]))).
Proof.
  split; [reflexivity|].
  destruct (read_chunk_failure_discards sample_open
              (sample_usb [Data (replicate 10 x01); Data (replicate 60 x02);
                           Data (replicate 64 x03)])
              sample_in [replicate 10 x01] [Data (replicate 64 x03)]
              eq_refl) as [_ Hover].
  - simpl. lia.
  - apply (Hover (replicate 60 x02) eq_refl). simpl. lia.
Defined.

Lemma read_chunk_returns h u ep pieces p rest :
  readhandle h = Some ep ->
  rx u = (Data <$> pieces) ++ Data p :: rest ->
  length (concat pieces) < 64 ->
  length (concat pieces ++ p) = 64 ->
  CDCACMHandle.read_chunk (h, u) =
  (Return (concat pieces ++ p),
   (h, emit (printed_read (concat pieces ++ p)) (after_reads ep pieces rest u))).
Proof.
  intros Hrh Hrx Hlt Hlen. rewrite (read_chunk_unfold h u ep Hrh), Hrx.
  rewrite read_loop_partial by done. simpl.
  rewrite bool_decide_false by lia. rewrite bool_decide_true by done.
  unfold emit, after_reads. simpl. by rewrite <- !app_assoc.
Qed.

(** X3. Two [read_chunk] calls in a row return two consecutive chunks of the
    stream: the second starts at the delivery after the last one the first
    consumed, so no byte is lost or read twice between chunks. *)
Theorem read_chunk_twice (h : CDCACMHandle) (u : Usb) (ep : Endpoint)
    (pieces1 pieces2 : list (list byte)) (p1 p2 : list byte)
    (rest : list Delivery) :
  readhandle h = Some ep ->
  rx u = (Data <$> pieces1) ++ Data p1 :: (Data <$> pieces2) ++ Data p2 :: rest ->
  length (concat pieces1) < 64 -> length (concat pieces1 ++ p1) = 64 ->
  length (concat pieces2) < 64 -> length (concat pieces2 ++ p2) = 64 ->
  exists s',
    (c1 <- CDCACMHandle.read_chunk ;;
     c2 <- CDCACMHandle.read_chunk ;;
     ret (c1, c2)) (h, u) =
    (Return (concat pieces1 ++ p1, concat pieces2 ++ p2), s') /\
    s'.1 = h /\ rx s'.2 = rest.
Proof.
  intros Hrh Hrx Hlt1 Hlen1 Hlt2 Hlen2.
  unfold bind at 1.
  rewrite (read_chunk_returns h u ep pieces1 p1 _ Hrh Hrx Hlt1 Hlen1).
  unfold bind at 1.
  erewrite (read_chunk_returns h _ ep pieces2 p2 rest Hrh); [|done..].
  eexists. split; [reflexivity|]. done.
Qed.

Lemma read_chunk_twice_witness :
  readhandle sample_open = Some sample_in /\
  exists s',
    (c1 <- CDCACMHandle.read_chunk ;;
     c2 <- CDCACMHandle.read_chunk ;;
     ret (c1, c2))
      (sample_open,
       sample_usb [Data (replicate 64 x01); Data (replicate 30 x02);
                   Data (replicate 34 x03)]) =
    (Return (replicate 64 x01, replicate 30 x02 ++ replicate 34 x03), s') /\
    s'.1 = sample_open /\ rx s'.2 = [].
Proof.
  split; [reflexivity|].
  apply (read_chunk_twice sample_open
           (sample_usb [Data (replicate 64 x01); Data (replicate 30 x02);
                        Data (replicate 34 x03)])
           sample_in [] [replicate 30 x02] (replicate 64 x01)
           (replicate 34 x03) [] eq_refl eq_refl).
  - simpl. lia.
  - reflexivity.
  - simpl. lia.
  - reflexivity.
Defined.

(** ** [open]: kernel drivers, discovery errors, partial and repeated opens *)

Lemma Z_mem_filter_ne idx j l :
  Z_mem idx (filter (fun i => i ≠ j) l) = Z_mem idx l && negb (idx =? j)%Z.
Proof.
  unfold Z_mem. induction l as [|x l IH]; [done|].
  rewrite filter_cons. destruct (decide (x ≠ j)) as [Hne|Heq]; simpl.
  - rewrite IH.
    destruct (idx =? x)%Z eqn:Hx, (idx =? j)%Z eqn:Hj,
             (existsb (Z.eqb idx) l); simpl; try done; lia.
  - apply dec_stable in Heq. subst x. rewrite IH.
    by destruct (idx =? j)%Z, (existsb (Z.eqb idx) l).
Qed.

Lemma Z_mem_detached idx j u :
  Z_mem idx (kernel_driver (detached j u)) =
  Z_mem idx (kernel_driver u) && negb (idx =? j)%Z.
Proof.
  unfold detached. destruct (Z_mem j (kernel_driver u)) eqn:Hj; simpl.
  - apply Z_mem_filter_ne.
  - destruct (idx =? j)%Z eqn:Hij; simpl; [|by rewrite andb_true_r].
    apply Z.eqb_eq in Hij. subst idx. by rewrite Hj.
Qed.

Lemma Z_mem_discovered d u idx :
  Z_mem idx (kernel_driver (discovered d u)) =
  Z_mem idx (kernel_driver u) && negb (taken_over (configuration d) idx).
Proof.
  unfold discovered, taken_over.
  destruct (first_comm (configuration d)) as [c|],
           (first_data (configuration d)) as [i|];
    rewrite ?Z_mem_detached; simpl; rewrite ?Z_mem_detached; simpl;
    destruct (Z_mem idx (kernel_driver u)); simpl;
    repeat match goal with
           | |- context [(idx =? ?j)%Z] => destruct (idx =? j)%Z
           end; done.
Qed.

Lemma kernel_driver_line_configured d control u :
  kernel_driver (line_configured d control u) = kernel_driver u.
Proof.
  unfold line_configured. destruct control as [c|]; [|done].
  by destruct (fault d (set_control_line_state (index c))).
Qed.

(** X4. With the discovery requests answered, [open] leaves a kernel driver
    bound to an interface exactly when one was bound before and the
    interface is neither the first communications-class nor the first
    data-class interface: the drivers of the other interfaces of the device
    are not touched, whether [open] succeeds or raises. *)
Theorem open_detaches_only_cdc (h : CDCACMHandle) (u : Usb) (idx : Z) :
  discovery_ok (device h) ->
  Z_mem idx (kernel_driver (CDCACMHandle.open (h, u)).2.2) =
  Z_mem idx (kernel_driver u) &&
  negb (taken_over (configuration (device h)) idx).
Proof.
  intros Hok. pose proof (open_unfold h u Hok) as Hopen. cbn zeta in Hopen.
  rewrite Hopen.
  destruct (readhandle _) as [r|]; [destruct (writehandle _) as [w|]|];
    cbn [fst snd]; rewrite ?kernel_driver_line_configured;
    apply Z_mem_discovered.
Qed.

Lemma open_detaches_only_cdc_witness :
  discovery_ok (sample_device [sample_comm; sample_data] no_fault) /\
  Z_mem 2
    (kernel_driver
       (CDCACMHandle.open
          (CDCACMHandle.init (sample_device [sample_comm; sample_data] no_fault)
             false,
           {| kernel_driver := [0; 1; 2]%Z; rx := []; trace := [] |})).2.2)
  = true /\
  Z_mem 1
    (kernel_driver
       (CDCACMHandle.open
          (CDCACMHandle.init (sample_device [sample_comm; sample_data] no_fault)
             false,
           {| kernel_driver := [0; 1; 2]%Z; rx := []; trace := [] |})).2.2)
  = false.
Proof.
  split; [apply sample_discovery_ok|].
  split;
    rewrite (open_detaches_only_cdc
               (CDCACMHandle.init
                  (sample_device [sample_comm; sample_data] no_fault) false)
               _ _ (sample_discovery_ok _));
    reflexivity.
Defined.

Lemma control_loop_refused d ifaces control c f h u :
  first_comm ifaces = Some c ->
  fault d (EvIsKernelDriverActive (index c)) = Some f ->
  CDCACMHandle.control_loop d ifaces control (h, u) =
  (Raise (usb_exn f), (h, emit (EvIsKernelDriverActive (index c)) u)).
Proof.
  intros Hcomm Hf. revert control.
  induction ifaces as [|i ifaces IH]; intros control; [done|].
  unfold first_comm in Hcomm. simpl in *. unfold is_comm in Hcomm at 1.
  destruct (bInterfaceClass i =? CLASS_COMM)%Z.
  - injection Hcomm as ->.
    unfold bind, CDCACMHandle.detach_if_active, is_kernel_driver_active, bind.
    by rewrite (request_refused _ _ f).
  - by apply IH.
Qed.

(** X5. Unlike the two control transfers, the requests of the discovery phase
    are not guarded: when the USB stack refuses [get_active_configuration],
    or the kernel-driver query on the communications interface (as a backend
    without that operation does), [open] raises that error at once, with the
    handle unchanged, no endpoint assigned and no further request made. *)
Theorem open_discovery_error_propagates (h : CDCACMHandle) (u : Usb)
    (f : UsbFailure) :
  (fault (device h) EvGetActiveConfiguration = Some f ->
   CDCACMHandle.open (h, u) =
     (Raise (usb_exn f), (h, emit EvGetActiveConfiguration u))) /\
  (forall c,
     fault (device h) EvGetActiveConfiguration = None ->
     first_comm (configuration (device h)) = Some c ->
     fault (device h) (EvIsKernelDriverActive (index c)) = Some f ->
     CDCACMHandle.open (h, u) =
       (Raise (usb_exn f),
        (h, emit (EvIsKernelDriverActive (index c))
              (emit EvGetActiveConfiguration u)))).
Proof.
  split.
  - intros Hf. unfold CDCACMHandle.open, get_active_configuration.
    unfold bind at 1. unfold gets at 1. cbn [fst snd].
    unfold bind at 1. unfold bind at 1.
    by rewrite (request_refused _ _ f).
  - intros c Hcfg Hcomm Hf. unfold CDCACMHandle.open, get_active_configuration.
    unfold bind at 1. unfold gets at 1. cbn [fst snd].
    unfold bind at 1. unfold bind at 1.
    rewrite request_ok by done. unfold ret at 1.
    unfold bind at 1.
    by rewrite (control_loop_refused _ _ _ c f).
Qed.

Lemma open_discovery_error_propagates_witness :
  CDCACMHandle.open
    (CDCACMHandle.init (sample_device [sample_comm; sample_data] no_kernel_query)
       false, sample_usb []) =
  (Raise NotImplementedError,
   (CDCACMHandle.init (sample_device [sample_comm; sample_data] no_kernel_query)
      false,
    emit (EvIsKernelDriverActive 0) (emit EvGetActiveConfiguration (sample_usb [])))).
Proof.
  destruct (open_discovery_error_propagates
              (CDCACMHandle.init
                 (sample_device [sample_comm; sample_data] no_kernel_query)
                 false)
              (sample_usb []) FailNotImplemented) as [_ Hquery].
  apply (Hquery sample_comm); reflexivity.
Defined.

(** X6. [open] is not all or nothing.  When the first data-class interface has
    an IN endpoint but no OUT endpoint, [open] raises the [IOError] and still
    leaves the IN endpoint assigned to [readhandle]: on that handle
    [write_chunk] raises [AssertionError] for every chunk, of whatever
    length, without a request to the device. *)
Theorem open_failure_keeps_found_endpoint (d : Device) (debug : bool)
    (u : Usb) (i : Interface) (r : Endpoint) :
  discovery_ok d ->
  first_data (configuration d) = Some i ->
  last_in (endpoints i) = Some r ->
  last_out (endpoints i) = None ->
  CDCACMHandle.open (CDCACMHandle.init d debug, u) =
    (Raise cannot_open,
     (set_readhandle r (CDCACMHandle.init d debug), discovered d u)) /\
  forall chunk,
    CDCACMHandle.write_chunk chunk
      (CDCACMHandle.open (CDCACMHandle.init d debug, u)).2 =
    (Raise AssertionError,
     (set_readhandle r (CDCACMHandle.init d debug),
      emit (printed_write chunk) (discovered d u))).
Proof.
  intros Hok Hdata Hr Hw.
  pose proof (open_unfold (CDCACMHandle.init d debug) u Hok) as Hopen.
  cbn zeta in Hopen. change (device (CDCACMHandle.init d debug)) with d in Hopen.
  rewrite Hdata in Hopen. unfold assigned in Hopen. simpl in Hopen.
  rewrite Hr, Hw in Hopen.
  split; [exact Hopen|]. intros chunk. by rewrite Hopen.
Qed.

Lemma open_failure_keeps_found_endpoint_witness :
  discovery_ok (sample_device [sample_comm; sample_data_in_only] no_fault) /\
  readhandle
    (CDCACMHandle.open
       (CDCACMHandle.init
          (sample_device [sample_comm; sample_data_in_only] no_fault) false,
        sample_usb [])).2.1 = Some sample_in /\
  (CDCACMHandle.open
     (CDCACMHandle.init
        (sample_device [sample_comm; sample_data_in_only] no_fault) false,
      sample_usb [])).1 = Raise cannot_open.
Proof.
  split; [apply sample_discovery_ok|].
  destruct (open_failure_keeps_found_endpoint
              (sample_device [sample_comm; sample_data_in_only] no_fault) false
              (sample_usb []) sample_data_in_only sample_in
              (sample_discovery_ok _) eq_refl eq_refl eq_refl) as [Hopen _].
  by rewrite Hopen.
Defined.

Lemma detached_unbound idx u :
  Z_mem idx (kernel_driver u) = false ->
  detached idx u = emit (EvIsKernelDriverActive idx) u.
Proof. intros Hidx. unfold detached. by rewrite Hidx. Qed.

Lemma discovered_unbound d u :
  (forall idx, taken_over (configuration d) idx = true ->
               Z_mem idx (kernel_driver u) = false) ->
  kernel_driver (discovered d u) = kernel_driver u /\
  exists new,
    trace (discovered d u) = trace u ++ new /\
    forall idx, EvDetachKernelDriver idx ∉ new.
Proof.
  intros Hfree. unfold discovered.
  assert (forall c, first_comm (configuration d) = Some c ->
                    Z_mem (index c) (kernel_driver u) = false) as Hc.
  { intros c Hcomm. apply Hfree. unfold taken_over.
    by rewrite Hcomm, Z.eqb_refl. }
  assert (forall i, first_data (configuration d) = Some i ->
                    Z_mem (index i) (kernel_driver u) = false) as Hi.
  { intros i Hdata. apply Hfree. unfold taken_over.
    by rewrite Hdata, Z.eqb_refl, orb_true_r. }
  destruct (first_comm (configuration d)) as [c|],
           (first_data (configuration d)) as [i|];
    rewrite ?(detached_unbound (index c))
      by (simpl; by apply Hc);
    rewrite ?(detached_unbound (index i))
      by (simpl; by apply Hi);
    (split; [done|]); simpl; rewrite <- ?app_assoc; simpl;
    eexists; (split; [reflexivity|]); intros idx;
    rewrite ?not_elem_of_cons; repeat split; try done; apply not_elem_of_nil.
Qed.

Lemma line_configured_trace d control u :
  exists new,
    trace (line_configured d control u) = trace u ++ new /\
    forall idx, EvDetachKernelDriver idx ∉ new.
Proof.
  unfold line_configured. destruct control as [c|].
  - destruct (fault d (set_control_line_state (index c))); simpl;
      rewrite <- ?app_assoc; simpl;
      eexists; (split; [reflexivity|]); intros idx;
      rewrite ?not_elem_of_cons; repeat split; try done; apply not_elem_of_nil.
  - exists []. split; [by rewrite app_nil_r|]. intros idx. apply not_elem_of_nil.
Qed.

(** X7. [open] can be repeated.  A second [open] on a handle that was opened
    succeeds again and leaves the same endpoints assigned; since the first
    one has taken the kernel drivers off, the second asks for no detach and
    leaves the kernel drivers as they are. *)
Theorem reopen_detaches_nothing (d : Device) (debug : bool) (u : Usb)
    (i : Interface) (r w : Endpoint) :
  discovery_ok d ->
  first_data (configuration d) = Some i ->
  last_in (endpoints i) = Some r ->
  last_out (endpoints i) = Some w ->
  exists h1 u1 u2 new,
    CDCACMHandle.open (CDCACMHandle.init d debug, u) = (Return tt, (h1, u1)) /\
    CDCACMHandle.open (h1, u1) = (Return tt, (h1, u2)) /\
    readhandle h1 = Some r /\ writehandle h1 = Some w /\
    kernel_driver u2 = kernel_driver u1 /\
    trace u2 = trace u1 ++ new /\
    forall idx, EvDetachKernelDriver idx ∉ new.
Proof.
  intros Hok Hdata Hr Hw.
  pose proof (open_unfold (CDCACMHandle.init d debug) u Hok) as Hopen.
  cbn zeta in Hopen. change (device (CDCACMHandle.init d debug)) with d in Hopen.
  rewrite Hdata in Hopen. unfold assigned in Hopen at 1 2.
  cbn [readhandle writehandle] in Hopen. rewrite Hr, Hw in Hopen.
  set (h1 := assigned (endpoints i) (CDCACMHandle.init d debug)) in *.
  set (u1 := line_configured d (control_of (configuration d)) (discovered d u))
    in *.
  assert (device h1 = d) as Hdev by done.
  assert (discovery_ok (device h1)) as Hok1 by (by rewrite Hdev).
  pose proof (open_unfold h1 u1 Hok1) as Hopen2. cbn zeta in Hopen2.
  rewrite Hdev, Hdata in Hopen2.
  assert (assigned (endpoints i) h1 = h1) as Hsame.
  { subst h1. unfold assigned. simpl. by rewrite Hr, Hw. }
  rewrite Hsame in Hopen2.
  assert (readhandle h1 = Some r) as Hr1 by (subst h1; simpl; by rewrite Hr).
  assert (writehandle h1 = Some w) as Hw1 by (subst h1; simpl; by rewrite Hw).
  rewrite Hr1, Hw1 in Hopen2.
  destruct (discovered_unbound d u1) as (Hkd & new1 & Htr1 & Hnew1).
  { intros idx Htaken. subst u1.
    rewrite kernel_driver_line_configured, Z_mem_discovered, Htaken.
    apply andb_false_r. }
  destruct (line_configured_trace d (control_of (configuration d))
              (discovered d u1)) as (new2 & Htr2 & Hnew2).
  eexists h1, u1, _, (new1 ++ new2).
  split; [exact Hopen|]. split; [exact Hopen2|].
  split; [done|]. split; [done|]. split.
  { by rewrite kernel_driver_line_configured. }
  split.
  { by rewrite Htr2, Htr1, app_assoc. }
  intros idx [Hin | Hin]%elem_of_app; [by apply (Hnew1 idx)|by apply (Hnew2 idx)].
Qed.

Lemma reopen_detaches_nothing_witness :
  discovery_ok (sample_device [sample_comm; sample_data] no_fault) /\
  exists h1 u1 u2 new,
    CDCACMHandle.open
      (CDCACMHandle.init (sample_device [sample_comm; sample_data] no_fault)
         false, sample_usb []) = (Return tt, (h1, u1)) /\
    CDCACMHandle.open (h1, u1) = (Return tt, (h1, u2)) /\
    readhandle h1 = Some sample_in /\ writehandle h1 = Some sample_out /\
    kernel_driver u2 = kernel_driver u1 /\
    trace u2 = trace u1 ++ new /\
    forall idx, EvDetachKernelDriver idx ∉ new.
Proof.
  split; [apply sample_discovery_ok|].
  apply (reopen_detaches_nothing
           (sample_device [sample_comm; sample_data] no_fault) false
           (sample_usb []) sample_data sample_in sample_out
           (sample_discovery_ok _)); reflexivity.
Defined.

(** ** [get_path] *)

Lemma fmt_03i_small (z : Z) :
  (0 <= z < 1000)%Z ->
  String.length (fmt_03i z) = 3 /\
  exists u, NilEmpty.uint_of_string (fmt_03i z) = Some u /\
            Z.of_nat (Nat.of_uint u) = z.
Proof.
  intros Hz.
  assert (forallb fmt_03i_reads_back (seq 0 1000) = true) as Hall
    by (vm_compute; reflexivity).
  rewrite forallb_forall in Hall.
  specialize (Hall (Z.to_nat z)).
  rewrite in_seq in Hall. specialize (Hall ltac:(lia)).
  unfold fmt_03i_reads_back in Hall. rewrite Z2Nat.id in Hall by lia.
  apply andb_true_iff in Hall as [Hlen Hback].
  split; [by apply Nat.eqb_eq|].
  destruct (NilEmpty.uint_of_string (fmt_03i z)) as [u|]; [|done].
  exists u. split; [done|]. apply Nat.eqb_eq in Hback. lia.
Qed.

Lemma fmt_03i_small_inj (a b : Z) :
  (0 <= a < 1000)%Z -> (0 <= b < 1000)%Z ->
  fmt_03i a = fmt_03i b -> a = b.
Proof.
  intros Ha Hb Heq.
  destruct (fmt_03i_small a Ha) as (_ & u & Hu & <-).
  destruct (fmt_03i_small b Hb) as (_ & v & Hv & <-).
  rewrite Heq in Hu. congruence.
Qed.

Lemma string_app_inj_length (s1 s2 t1 t2 : string) :
  String.length s1 = String.length s2 ->
  s1 +:+ t1 = s2 +:+ t2 -> s1 = s2 /\ t1 = t2.
Proof.
  revert s2. induction s1 as [|a s1 IH]; intros [|b s2] Hlen Heq;
    simpl in *; try discriminate.
  - done.
  - injection Heq as -> Heq. destruct (IH s2) as [-> ->]; [lia|done|done].
Qed.

Lemma string_length_app (s t : string) :
  String.length (s +:+ t) = String.length s + String.length t.
Proof. induction s as [|a s IH]; simpl; [done|]. by rewrite IH. Qed.

(** X8. For bus numbers and addresses of at most three digits, [get_path] is
    ["cdcacm:"], the bus number and the address each zero-padded to three
    digits and separated by a colon, 14 characters in all; two transports
    then have the same path only if their devices have the same bus number
    and the same address. *)
Theorem get_path_identifies_bus_address (t1 t2 : CDCACMTransport.t) :
  three_digits t1 -> three_digits t2 ->
  String.length (CDCACMTransport.get_path t1) = 14 /\
  (CDCACMTransport.get_path t1 = CDCACMTransport.get_path t2 ->
   bus (CDCACMTransport.device t1) = bus (CDCACMTransport.device t2) /\
   address (CDCACMTransport.device t1) = address (CDCACMTransport.device t2)).
Proof.
  intros [Hb1 Ha1] [Hb2 Ha2]. unfold CDCACMTransport.get_path.
  destruct (fmt_03i_small _ Hb1) as [Hlb1 _].
  destruct (fmt_03i_small _ Ha1) as [Hla1 _].
  destruct (fmt_03i_small _ Hb2) as [Hlb2 _].
  split.
  - rewrite !string_length_app, Hlb1, Hla1. reflexivity.
  - intros Heq.
    apply string_app_inj_length in Heq as [_ Heq]; [|done].
    apply string_app_inj_length in Heq as [_ Heq]; [|done].
    apply string_app_inj_length in Heq as [Hbus Heq]; [|by rewrite Hlb1, Hlb2].
    apply string_app_inj_length in Heq as [_ Haddress]; [|done].
    split; by apply fmt_03i_small_inj.
Qed.

Lemma get_path_identifies_bus_address_witness :
  CDCACMTransport.get_path (bare_transport 1) = "cdcacm:001:004" /\
  String.length (CDCACMTransport.get_path (bare_transport 1)) = 14.
Proof.
  split; [reflexivity|].
  apply (get_path_identifies_bus_address (bare_transport 1) (bare_transport 1));
    split; simpl; lia.
Defined.

(** ** [CDCACMTransport.enumerate] with a device on the bus *)

Lemma construct_all_spec ProtocolV1_VERSION ds heap :
  CDCACMTransport.construct_all ProtocolV1_VERSION ds heap =
  (Return (imap (fun k d => main_transport ProtocolV1_VERSION d (length heap + k))
             ds),
   heap ++ ((fun d => CDCACMHandle.init d false) <$> ds)).
Proof.
  revert heap. induction ds as [|d ds IH]; intros heap.
  - simpl. by rewrite app_nil_r.
  - cbn [CDCACMTransport.construct_all]. unfold bind at 1.
    unfold CDCACMTransport.init, bind at 1, alloc, ret at 1.
    unfold bind at 1. rewrite IH. unfold ret. simpl.
    rewrite <- app_assoc. simpl. rewrite length_app. simpl.
    rewrite Nat.add_0_r. f_equal. f_equal. f_equal.
    apply imap_ext. intros k d' _. simpl. f_equal. lia.
Qed.

(** X9. When a device of the bus has the vendor and product identifiers of
    [DEV_STM32F4], [enumerate] returns one transport for each configuration
    of the first such device and nothing for any other device.  Each of
    these transports has [debug] unset, reports the vendor identifier that
    was searched for, and holds a handle of its own, newly constructed and
    not opened; the handles there were stay as they are. *)
Theorem enumerate_first_match (ProtocolV1_VERSION : Z) (DEV_STM32F4 : Z * Z)
    (usb_bus : list Device) (heap : Heap) (d : Device) :
  d ∈ usb_bus ->
  idVendor d = DEV_STM32F4.1 -> idProduct d = DEV_STM32F4.2 ->
  exists d0 ts,
    usb_core_find usb_bus DEV_STM32F4.1 DEV_STM32F4.2 = Some d0 /\
    d0 ∈ usb_bus /\
    CDCACMTransport.enumerate ProtocolV1_VERSION DEV_STM32F4 usb_bus heap =
      (Return ts,
       heap ++ replicate (bNumConfigurations d0) (CDCACMHandle.init d0 false)) /\
    length ts = bNumConfigurations d0 /\
    forall k t, ts !! k = Some t ->
      CDCACMTransport.device t = d0 /\
      CDCACMTransport.get_usb_vendor_id t = DEV_STM32F4.1 /\
      CDCACMTransport.debug t = false /\
      CDCACMTransport.handle t = length heap + k /\
      heap !! CDCACMTransport.handle t = None /\
      (heap ++ replicate (bNumConfigurations d0) (CDCACMHandle.init d0 false))
        !! CDCACMTransport.handle t = Some (CDCACMHandle.init d0 false).
Proof.
  intros Hin Hv Hp.
  destruct (usb_core_find usb_bus DEV_STM32F4.1 DEV_STM32F4.2) as [d0|] eqn:Hfind.
  - pose proof Hfind as Hfound. unfold usb_core_find in Hfound.
    apply find_some in Hfound as [Hin0 Hmatch].
    apply andb_true_iff in Hmatch as [Hv0%Z.eqb_eq Hp0%Z.eqb_eq].
    exists d0.
    exists (imap (fun k d' => main_transport ProtocolV1_VERSION d'
                               (length heap + k)) (iter_device d0)).
    split; [done|]. split; [by apply list_elem_of_In|].
    split.
    { unfold CDCACMTransport.enumerate. rewrite Hfind. unfold bind.
      rewrite construct_all_spec. unfold ret, iter_device. simpl.
      by rewrite fmap_replicate. }
    split; [unfold iter_device; by rewrite length_imap, length_replicate|].
    intros k t Ht. rewrite list_lookup_imap in Ht.
    unfold iter_device in Ht.
    destruct (replicate (bNumConfigurations d0) d0 !! k) as [d'|] eqn:Hk;
      [|done].
    apply lookup_replicate in Hk as [-> Hk]. injection Ht as <-. simpl.
    unfold CDCACMTransport.get_usb_vendor_id. simpl.
    repeat split; try done.
    + apply lookup_ge_None_2. lia.
    + rewrite lookup_app_r by lia.
      apply lookup_replicate. split; [done|lia].
  - unfold usb_core_find in Hfind.
    apply list_elem_of_In in Hin.
    apply (find_none _ _ Hfind) in Hin.
    apply andb_false_iff in Hin as [Hno%Z.eqb_neq | Hno%Z.eqb_neq]; done.
Qed.

Lemma enumerate_first_match_witness :
  exists ts,
    CDCACMTransport.enumerate 1 (0x0483, 0x5740)%Z
      [sample_device [] no_fault;
       sample_device [sample_comm; sample_data] no_fault] [] =
    (Return ts, [CDCACMHandle.init (sample_device [] no_fault) false]) /\
    length ts = 1.
Proof.
  destruct (enumerate_first_match 1 (0x0483, 0x5740)%Z
              [sample_device [] no_fault;
               sample_device [sample_comm; sample_data] no_fault] []
              (sample_device [sample_comm; sample_data] no_fault))
    as (d0 & ts & Hfind & _ & Hrun & Hlen & _).
  - apply list_elem_of_further, list_elem_of_here.
  - reflexivity.
  - reflexivity.
  - injection Hfind as <-. by exists ts.
Defined.

(** ** [find_debug], called twice *)

(** X10. Under a protocol version below 2 no debug handle is kept: every call of
    [find_debug] constructs another one.  Two calls on the same transport
    return transports whose handles differ, each bound to [DEBUG_INTERFACE]
    and [DEBUG_ENDPOINT] of the same device and neither opened. *)
Theorem find_debug_twice (ProtocolV1_VERSION : Z) (self : CDCACMTransport.t)
    (heap : Heap) :
  (CDCACMTransport.VERSION (CDCACMTransport.protocol self) < 2)%Z ->
  exists t1 t2 heap2,
    (t1 <- CDCACMTransport.find_debug ProtocolV1_VERSION self ;;
     t2 <- CDCACMTransport.find_debug ProtocolV1_VERSION self ;;
     ret (t1, t2)) heap = (Return (t1, t2), heap2) /\
    CDCACMTransport.handle t1 ≠ CDCACMTransport.handle t2 /\
    heap2 !! CDCACMTransport.handle t1 =
      Some (CDCACMHandle.init (CDCACMTransport.device self) true) /\
    heap2 !! CDCACMTransport.handle t2 =
      Some (CDCACMHandle.init (CDCACMTransport.device self) true) /\
    length heap2 = length heap + 2.
Proof.
  intros Hv. unfold CDCACMTransport.find_debug.
  assert ((CDCACMTransport.VERSION (CDCACMTransport.protocol self) >=? 2)%Z
          = false) as -> by lia.
  eexists _, _, _. split; [reflexivity|]. simpl.
  split; [rewrite length_app; simpl; lia|]. split.
  { rewrite (lookup_app_l
               (heap ++ [CDCACMHandle.init (CDCACMTransport.device self) true]))
      by (rewrite length_app; simpl; lia).
    rewrite (lookup_app_r heap) by done. by rewrite Nat.sub_diag. }
  split.
  { rewrite (lookup_app_r
               (heap ++ [CDCACMHandle.init (CDCACMTransport.device self) true]))
      by done.
    by rewrite Nat.sub_diag. }
  rewrite !length_app. simpl. lia.
Qed.

Lemma find_debug_twice_witness :
  exists t1 t2 heap2,
    (t1 <- CDCACMTransport.find_debug 1 (bare_transport 1) ;;
     t2 <- CDCACMTransport.find_debug 1 (bare_transport 1) ;;
     ret (t1, t2))
      [CDCACMHandle.init (sample_device [] no_fault) false] =
    (Return (t1, t2), heap2) /\
    CDCACMTransport.handle t1 ≠ CDCACMTransport.handle t2.
Proof.
  destruct (find_debug_twice 1 (bare_transport 1)
              [CDCACMHandle.init (sample_device [] no_fault) false])
    as (t1 & t2 & heap2 & Hrun & Hne & _).
  - simpl. lia.
  - by exists t1, t2, heap2.
Defined.

(** * Further properties of [enumerate] of stm32f4.py *)

Section Stm32f4More.

Import Stm32f4.

Variable STM32F4_VENDOR_IDS : gset Z.
Variables DEVICE_NOT_INITIALIZED DEVICE_NOT_READY UNKNOWN_ERROR : Z.
Variable common_err_msgs_enumerate : string.
Variable STM32F4Client : string -> string -> exn + Client.
Variable get_xpub_fingerprint_hex : string -> exn + string.

Local Abbreviation probe :=
  (Stm32f4.probe DEVICE_NOT_INITIALIZED STM32F4Client get_xpub_fingerprint_hex).
Local Abbreviation probed :=
  (Stm32f4.probed DEVICE_NOT_INITIALIZED DEVICE_NOT_READY UNKNOWN_ERROR
     common_err_msgs_enumerate STM32F4Client get_xpub_fingerprint_hex).
Local Abbreviation failed :=
  (Stm32f4.failed DEVICE_NOT_READY UNKNOWN_ERROR common_err_msgs_enumerate).
Local Abbreviation iteration :=
  (Stm32f4.iteration STM32F4_VENDOR_IDS DEVICE_NOT_INITIALIZED
     DEVICE_NOT_READY UNKNOWN_ERROR common_err_msgs_enumerate STM32F4Client
     get_xpub_fingerprint_hex).
Local Abbreviation for_each :=
  (Stm32f4.for_each STM32F4_VENDOR_IDS DEVICE_NOT_INITIALIZED
     DEVICE_NOT_READY UNKNOWN_ERROR common_err_msgs_enumerate STM32F4Client
     get_xpub_fingerprint_hex).
Local Abbreviation enumerate :=
  (Stm32f4.enumerate STM32F4_VENDOR_IDS DEVICE_NOT_INITIALIZED
     DEVICE_NOT_READY UNKNOWN_ERROR common_err_msgs_enumerate STM32F4Client
     get_xpub_fingerprint_hex).
Local Abbreviation accepted dev :=
  (get_usb_vendor_id dev ∈ STM32F4_VENDOR_IDS ∪ {[ (-1)%Z ]}).
Local Abbreviation iteration_table :=
  (iteration_table STM32F4_VENDOR_IDS DEVICE_NOT_INITIALIZED
     DEVICE_NOT_READY UNKNOWN_ERROR common_err_msgs_enumerate STM32F4Client
     get_xpub_fingerprint_hex).

(** Split the decision table into its rows. *)
Ltac rows :=
  repeat match goal with
         | |- context [match ?x with inl _ => _ | inr _ => _ end] =>
             destruct x eqn:?
         | |- context [if ?b then _ else _] => destruct b eqn:?
         end.

(** Run the monadic code of the probe one layer further. *)
Ltac run_probe :=
  cbv beta iota delta
    [bind ret raise modify gets getitem setitem call set_client lift as_str
     Stm32f4.probe d_data client calls Value_eqb truthy fst snd];
  rewrite ?lookup_insert_eq;
  repeat (rewrite lookup_insert_ne by done; rewrite ?lookup_insert_eq).

(** Look a key up in a record of the table. *)
Ltac look :=
  unfold Stm32f4.failed, flagged, base;
  repeat match goal with
         | |- context [if ?b then _ else _] => destruct b
         end;
  repeat (rewrite lookup_insert_ne by done);
  rewrite ?lookup_insert_eq; try done.

(** ** Devices with a foreign vendor identifier *)

(** X11. [enumerate] does not touch a device whose USB vendor identifier is
    neither in [STM32F4_VENDOR_IDS] nor -1: no client is constructed for it
    and no record made, so the outcome is that of enumerating the accepted
    devices alone. *)
Theorem enumerate_ignores_foreign_vendor_ids (devs : list Transport)
    (password : string) :
  enumerate devs password =
  enumerate (filter (fun dev => accepted dev) devs) password.
Proof.
  unfold Stm32f4.enumerate.
  assert (forall s, for_each password devs s =
                    for_each password (filter (fun dev => accepted dev) devs) s)
    as ->; [|done].
  induction devs as [|dev devs IH]; intros [results log]; [done|].
  rewrite filter_cons. destruct (decide (accepted dev)) as [Hacc|Hforeign].
  - cbn [Stm32f4.for_each]. unfold bind.
    destruct (iteration password dev (results, log)) as [[[]|e|] s']; by rewrite ?IH.
  - cbn [Stm32f4.for_each]. unfold bind.
    rewrite iteration_table. rewrite bool_decide_true by done. apply IH.
Qed.

(** ** The record of a device that is ready, and of one that is not *)

(** X12. A device that is not locked, needs no passphrase that is missing, and is
    initialised, is asked once for the key at [m/0h] and then closed; its
    record has the fingerprint of that key, both flags cleared
    ([needs_passphrase_sent] even when passphrase protection is on), and
    neither [error] nor [code]. *)
Theorem ready_device_is_fingerprinted password dev results log c ft xpub fp :
  accepted dev ->
  STM32F4Client (get_path dev) password = inr c ->
  init_device c = inr ft ->
  str_in "STMicroelectronics" (vendor ft) = true ->
  pin_protection ft && negb (pin_cached ft) = false ->
  passphrase_protection ft && String.eqb password "" = false ->
  initialized ft = true ->
  get_pubkey_at_path c "m/0h" = inr xpub ->
  get_xpub_fingerprint_hex xpub = inr fp ->
  close c = None ->
  exists rec,
    iteration password dev (results, log) =
      (Return tt,
       (results ++ [rec],
        log ++ [(get_path dev, NewClient password);
                (get_path dev, InitDevice);
                (get_path dev, Print (vendor ft));
                (get_path dev, GetPubkeyAtPath "m/0h");
                (get_path dev, Close)])) /\
    rec !! "fingerprint" = Some (VStr fp) /\
    rec !! "needs_pin_sent" = Some (VBool false) /\
    rec !! "needs_passphrase_sent" = Some (VBool false) /\
    rec !! "error" = None /\ rec !! "code" = None.
Proof.
  intros Hacc Hc Hft Hv Hpin Hpass Hinit Hxpub Hfp Hclose.
  rewrite iteration_table, vendor_id_accepted by done. cbn zeta.
  unfold Stm32f4.probed.
  rewrite Hc, Hft, Hv, Hpin, Hpass, Hinit, Hxpub, Hfp.
  cbn [negb flow held made record fmap list_fmap app]. rewrite Hclose.
  eexists. split; [by rewrite <- app_assoc|].
  repeat split; look; by rewrite Hpin.
Qed.

(** X13. A device that is not locked, needs no passphrase that is missing, and is
    not initialised, is never asked for a key: its record carries the error
    ['Not initialized'] with the code [DEVICE_NOT_INITIALIZED], no
    fingerprint, and [needs_passphrase_sent] as the device reports passphrase
    protection. *)
Theorem uninitialized_device_record password dev results log c ft :
  accepted dev ->
  STM32F4Client (get_path dev) password = inr c ->
  init_device c = inr ft ->
  str_in "STMicroelectronics" (vendor ft) = true ->
  pin_protection ft && negb (pin_cached ft) = false ->
  passphrase_protection ft && String.eqb password "" = false ->
  initialized ft = false ->
  close c = None ->
  exists rec,
    iteration password dev (results, log) =
      (Return tt,
       (results ++ [rec],
        log ++ [(get_path dev, NewClient password);
                (get_path dev, InitDevice);
                (get_path dev, Print (vendor ft));
                (get_path dev, Close)])) /\
    rec !! "error" = Some (VStr "Not initialized") /\
    rec !! "code" = Some (VInt DEVICE_NOT_INITIALIZED) /\
    rec !! "fingerprint" = None /\
    rec !! "needs_pin_sent" = Some (VBool false) /\
    rec !! "needs_passphrase_sent" = Some (VBool (passphrase_protection ft)).
Proof.
  intros Hacc Hc Hft Hv Hpin Hpass Hinit Hclose.
  rewrite iteration_table, vendor_id_accepted by done. cbn zeta.
  unfold Stm32f4.probed.
  rewrite Hc, Hft, Hv, Hpin, Hpass, Hinit.
  cbn [negb flow held made record fmap list_fmap app]. rewrite Hclose.
  eexists. split; [by rewrite <- app_assoc|].
  repeat split; look; by rewrite Hpin.
Qed.

(** X14. A device with passphrase protection that is not locked, probed with the
    empty password, makes the body of the probe raise the "passphrase
    needed" [DeviceNotReadyError], whether or not it is initialised; no key
    is asked for, the client is closed, and the record keeps
    [needs_passphrase_sent] set and has no fingerprint. *)
Theorem passphrase_is_required dev results log c ft :
  accepted dev ->
  STM32F4Client (get_path dev) "" = inr c ->
  init_device c = inr ft ->
  str_in "STMicroelectronics" (vendor ft) = true ->
  pin_protection ft && negb (pin_cached ft) = false ->
  passphrase_protection ft = true ->
  close c = None ->
  (exists f',
     probe ""
       {| d_data := base (get_path dev); client := None; calls := log |} =
     (Raise passphrase_needed, f')) /\
  exists rec,
    iteration "" dev (results, log) =
      (Return tt,
       (results ++ [rec],
        log ++ [(get_path dev, NewClient "");
                (get_path dev, InitDevice);
                (get_path dev, Print (vendor ft));
                (get_path dev, Close)])) /\
    rec !! "needs_passphrase_sent" = Some (VBool true) /\
    rec !! "needs_pin_sent" = Some (VBool false) /\
    rec !! "fingerprint" = None.
Proof.
  intros Hacc Hc Hft Hv Hpin Hpass Hclose. split.
  - unfold base. run_probe. rewrite Hc. run_probe. rewrite Hft. run_probe.
    rewrite Hv. cbn [negb]. run_probe.
    destruct (get_path dev =? "udp:127.0.0.1:21324")%string; run_probe;
      rewrite Hpin; run_probe; rewrite Hpass; cbn [negb andb String.eqb];
      eauto.
  - rewrite iteration_table, vendor_id_accepted by done. cbn zeta.
    unfold Stm32f4.probed.
    rewrite Hc, Hft, Hv, Hpin, Hpass.
    cbn [negb andb String.eqb flow held made record fmap list_fmap app].
    rewrite Hclose.
    eexists. split; [by rewrite <- app_assoc|].
    repeat split; look; by rewrite ?Hpin, ?Hpass.
Qed.


(** ** When the key is asked for *)

Lemma made_fetch password path q :
  GetPubkeyAtPath q ∈ made (probed password path) <->
  q = "m/0h" /\
  exists c ft,
    STM32F4Client path password = inr c /\
    init_device c = inr ft /\
    str_in "STMicroelectronics" (vendor ft) = true /\
    pin_protection ft && negb (pin_cached ft) = false /\
    passphrase_protection ft && String.eqb password "" = false /\
    initialized ft = true.
Proof.
  unfold Stm32f4.probed. split.
  - destruct (STM32F4Client path password) as [e|c] eqn:Hc.
    { cbn [made]. intros H. repeat (apply elem_of_cons in H as [H|H]; [done|]).
      by apply elem_of_nil in H. }
    destruct (init_device c) as [e|ft] eqn:Hft.
    { cbn [made]. intros H. repeat (apply elem_of_cons in H as [H|H]; [done|]).
      by apply elem_of_nil in H. }
    destruct (str_in "STMicroelectronics" (vendor ft)) eqn:Hv; cbn [negb];
      destruct (pin_protection ft && negb (pin_cached ft)) eqn:Hpin;
      destruct (passphrase_protection ft && String.eqb password "") eqn:Hpass;
      destruct (initialized ft) eqn:Hinit;
      try destruct (get_pubkey_at_path c "m/0h") as [e|xpub];
      try destruct (get_xpub_fingerprint_hex xpub) as [e'|fp];
      cbn [made app]; intros H;
      repeat (apply elem_of_cons in H as [H|H];
              [first [discriminate H | injection H as ->; eauto 10]|]);
      by apply elem_of_nil in H.
  - intros (-> & c & ft & -> & -> & -> & -> & -> & ->). cbn [negb].
    destruct (get_pubkey_at_path c "m/0h") as [e|xpub];
      [|destruct (get_xpub_fingerprint_hex xpub) as [e'|fp]];
      cbn [made app]; do 3 apply list_elem_of_further; apply list_elem_of_here.
Qed.

(** X15. Within the probe of one accepted device, [get_pubkey_at_path] is called
    exactly when the client was constructed and initialised, the vendor
    string carries the manufacturer token, the device is not locked, no
    passphrase is missing and the device is initialised; the path asked for
    is always [m/0h]. *)
Theorem key_is_fetched_iff_ready password dev results log :
  accepted dev ->
  exists new,
    (iteration password dev (results, log)).2.2 = log ++ new /\
    forall q,
      (get_path dev, GetPubkeyAtPath q) ∈ new <->
      q = "m/0h" /\
      exists c ft,
        STM32F4Client (get_path dev) password = inr c /\
        init_device c = inr ft /\
        str_in "STMicroelectronics" (vendor ft) = true /\
        pin_protection ft && negb (pin_cached ft) = false /\
        passphrase_protection ft && String.eqb password "" = false /\
        initialized ft = true.
Proof.
  intros Hacc.
  assert (exists tail,
    (iteration password dev (results, log)).2.2 =
      log ++ (pair (get_path dev) <$> made (probed password (get_path dev)))
          ++ tail /\
    (tail = [] \/ tail = [(get_path dev, Close)])) as (tail & Hrun & Htail).
  { rewrite iteration_table, vendor_id_accepted by done. cbn zeta.
    destruct (flow (probed password (get_path dev)));
      [destruct (held (probed password (get_path dev))) as [c|];
       [destruct (close c)|]|];
      cbn [fst snd]; rewrite <- ?app_assoc;
      first [ exists [(get_path dev, Close)]; split; [reflexivity|by right]
            | exists []; split; [by rewrite app_nil_r|by left] ]. }
  eexists. split; [exact Hrun|]. intros q.
  rewrite <- made_fetch, elem_of_app, list_elem_of_fmap. split.
  - intros [(a & Heq & Ha) | Hin].
    + by injection Heq as <-.
    + destruct Htail as [-> | ->].
      * by apply elem_of_nil in Hin.
      * by apply list_elem_of_singleton in Hin.
  - intros Hin. left. eauto.
Qed.

(** ** What the returned records look like *)

Lemma for_each_added password devs results log r results' log' :
  for_each password devs (results, log) = (r, (results', log')) ->
  exists added,
    results' =
      results ++ ((fun dev => record (probed password (get_path dev))) <$> added)
    /\ sublist added devs /\
    Forall (fun dev => flow (probed password (get_path dev)) = Fallthrough)
      added.
Proof.
  revert results log.
  induction devs as [|dev devs IH]; intros results log Hrun.
  - injection Hrun as <- <- <-. exists []. by rewrite app_nil_r.
  - cbn [Stm32f4.for_each] in Hrun. unfold bind in Hrun.
    rewrite iteration_table in Hrun. cbn zeta in Hrun.
    assert (forall log1,
      for_each password devs (results, log1) = (r, (results', log')) ->
      exists added,
        results' =
          results ++ ((fun dev => record (probed password (get_path dev)))
                        <$> added)
        /\ sublist added (dev :: devs) /\
        Forall (fun dev => flow (probed password (get_path dev)) = Fallthrough)
          added) as Hskipped.
    { intros log1 Hrun1. destruct (IH _ _ Hrun1) as (added & -> & Hsub & Hall).
      exists added. split; [done|]. split; [by apply sublist_cons|done]. }
    assert (flow (probed password (get_path dev)) = Fallthrough ->
      forall log1,
      for_each password devs
        (results ++ [record (probed password (get_path dev))], log1) =
        (r, (results', log')) ->
      exists added,
        results' =
          results ++ ((fun dev => record (probed password (get_path dev)))
                        <$> added)
        /\ sublist added (dev :: devs) /\
        Forall (fun dev => flow (probed password (get_path dev)) = Fallthrough)
          added) as Hkept.
    { intros Hflow log1 Hrun1.
      destruct (IH _ _ Hrun1) as (added & -> & Hsub & Hall).
      exists (dev :: added). split; [by rewrite <- app_assoc|].
      split; [by apply sublist_skip|by apply Forall_cons_2]. }
    case_bool_decide; [by eapply Hskipped|].
    destruct (flow (probed password (get_path dev))) eqn:Hflow;
      [|by eapply Hskipped].
    destruct (held (probed password (get_path dev))) as [c|];
      [destruct (close c)|]; try by eapply Hkept.
    injection Hrun as <- <- <-. exists []. rewrite app_nil_r.
    split; [done|]. split; [apply sublist_nil_l|done].
Qed.

Lemma enumerate_added devs password results log :
  enumerate devs password = (Return results, log) ->
  exists added,
    results = (fun dev => record (probed password (get_path dev))) <$> added /\
    sublist added devs /\
    Forall (fun dev => flow (probed password (get_path dev)) = Fallthrough)
      added.
Proof.
  unfold Stm32f4.enumerate. intros Hrun.
  destruct (for_each password devs ([], [])) as [r [results' log']] eqn:Hloop.
  destruct r; try discriminate. injection Hrun as <- <-.
  by apply for_each_added in Hloop.
Qed.


Lemma record_shape password path :
  flow (probed password path) = Fallthrough ->
  (is_Some (record (probed password path) !! "fingerprint") <->
   record (probed password path) !! "error" = None) /\
  (is_Some (record (probed password path) !! "error") <->
   is_Some (record (probed password path) !! "code")) /\
  (is_Some (record (probed password path) !! "fingerprint") ->
   record (probed password path) !! "needs_pin_sent" = Some (VBool false) /\
   record (probed password path) !! "needs_passphrase_sent"
     = Some (VBool false)).
Proof.
  unfold Stm32f4.probed, Stm32f4.failed, flagged, base.
  rows; cbn [flow record]; intros Hflow; try discriminate Hflow;
    repeat (rewrite lookup_insert_ne by done);
    rewrite ?lookup_insert_eq;
    repeat (rewrite lookup_insert_ne by done);
    rewrite ?lookup_insert_eq, ?lookup_empty;
    repeat split; intros; try done; try (by eexists);
    try (by (match goal with H : is_Some None |- _ =>
               apply is_Some_None in H end)).
Qed.

(** X17. Every record [enumerate] returns has either a fingerprint or an error,
    never both and never neither; it has a [code] exactly when it has an
    [error]; and a record with a fingerprint has [needs_pin_sent] and
    [needs_passphrase_sent] cleared. *)
Theorem enumerate_fingerprint_or_error devs password results log :
  enumerate devs password = (Return results, log) ->
  forall d, d ∈ results ->
    (is_Some (d !! "fingerprint") <-> d !! "error" = None) /\
    (is_Some (d !! "error") <-> is_Some (d !! "code")) /\
    (is_Some (d !! "fingerprint") ->
     d !! "needs_pin_sent" = Some (VBool false) /\
     d !! "needs_passphrase_sent" = Some (VBool false)).
Proof.
  intros Hrun d Hd. apply enumerate_added in Hrun as (added & -> & _ & Hall).
  apply list_elem_of_fmap in Hd as (dev & -> & Hdev).
  apply record_shape. by apply (proj1 (Forall_forall _ _) Hall).
Qed.


Lemma record_model password path :
  record (probed password path) !! "model" = Some (VStr "stm32f4") \/
  (record (probed password path) !! "model" = Some (VStr "stm32f4_simulator") /\
   path = "udp:127.0.0.1:21324").
Proof.
  unfold Stm32f4.probed, Stm32f4.failed, flagged, base.
  destruct (path =? "udp:127.0.0.1:21324")%string eqn:Hudp;
    [apply String.eqb_eq in Hudp|];
    rows; cbn [record];
    repeat (rewrite lookup_insert_ne by done);
    rewrite ?lookup_insert_eq; eauto.
Qed.

(** X18. The [model] of every record [enumerate] returns is ['stm32f4'], or
    ['stm32f4_simulator'], and the latter only in a record whose [path] is
    ['udp:127.0.0.1:21324']. *)
Theorem enumerate_model devs password results log :
  enumerate devs password = (Return results, log) ->
  forall d, d ∈ results ->
    d !! "model" = Some (VStr "stm32f4") \/
    (d !! "model" = Some (VStr "stm32f4_simulator") /\
     d !! "path" = Some (VStr "udp:127.0.0.1:21324")).
Proof.
  intros Hrun d Hd. apply enumerate_added in Hrun as (added & -> & _ & _).
  apply list_elem_of_fmap in Hd as (dev & -> & _).
  destruct (record_model password (get_path dev)) as [Hmain | [Hsim Hudp]];
    [by left|right].
  split; [done|]. rewrite <- Hudp.
  by destruct (record_identified DEVICE_NOT_INITIALIZED DEVICE_NOT_READY
                 UNKNOWN_ERROR common_err_msgs_enumerate STM32F4Client
                 get_xpub_fingerprint_hex password (get_path dev))
    as (_ & _ & ->).
Qed.

(** ** An exception of [close] *)

(** X19. [close] is called outside the [with] statement, so an exception it raises
    is not turned into a record: it leaves [enumerate], no list is returned,
    and the devices that follow are not probed. *)
Theorem close_error_aborts_enumeration password dev rest c e :
  accepted dev ->
  STM32F4Client (get_path dev) password = inr c ->
  (forall ft, init_device c = inr ft ->
              str_in "STMicroelectronics" (vendor ft) = true) ->
  close c = Some e ->
  (enumerate [dev] password).1 = Raise e /\
  enumerate (dev :: rest) password = enumerate [dev] password.
Proof.
  intros Hacc Hc Hvendor Hclose.
  assert (exists log',
    iteration password dev ([], []) = (Raise e, ([], log'))) as [log' Hrun].
  { rewrite iteration_table, vendor_id_accepted by done. cbn zeta.
    rewrite (held_constructed DEVICE_NOT_INITIALIZED DEVICE_NOT_READY
               UNKNOWN_ERROR common_err_msgs_enumerate STM32F4Client
               get_xpub_fingerprint_hex password (get_path dev) c Hc).
    rewrite Hclose.
    destruct (flow (probed password (get_path dev))) eqn:Hflow; [by eexists|].
    apply flow_continue in Hflow as (c' & ft & Hc' & Hft & Hv).
    rewrite Hc in Hc'. injection Hc' as <-.
    rewrite (Hvendor ft Hft) in Hv. done. }
  unfold Stm32f4.enumerate. cbn [Stm32f4.for_each]. unfold bind.
  by rewrite Hrun.
Qed.

End Stm32f4More.

Lemma enumerate_ignores_foreign_vendor_ids_witness :
  sample_enumerate (sample_features "STMicroelectronics" false false)
    [foreign_transport; sample_transport; foreign_transport] "" =
  sample_enumerate (sample_features "STMicroelectronics" false false)
    [sample_transport] "".
Proof.
  unfold sample_enumerate. rewrite enumerate_ignores_foreign_vendor_ids.
  reflexivity.
Defined.

Lemma ready_device_is_fingerprinted_witness :
  exists rec,
    sample_iteration (sample_unlocked true true) "secret" sample_transport
      ([], []) =
    (Return tt,
     ([rec],
      [("cdcacm:001:004", Stm32f4.NewClient "secret");
       ("cdcacm:001:004", Stm32f4.InitDevice);
       ("cdcacm:001:004", Stm32f4.Print "STMicroelectronics");
       ("cdcacm:001:004", Stm32f4.GetPubkeyAtPath "m/0h");
       ("cdcacm:001:004", Stm32f4.Close)])) /\
    rec !! "fingerprint" = Some (Stm32f4.VStr "0f056943") /\
    rec !! "needs_passphrase_sent" = Some (Stm32f4.VBool false).
Proof.
  destruct (ready_device_is_fingerprinted sample_vendor_ids (-18) (-12) (-13)
              sample_msg
              (fun _ _ => inr (sample_client (sample_unlocked true true)))
              sample_fingerprint "secret" sample_transport [] []
              (sample_client (sample_unlocked true true))
              (sample_unlocked true true) "xpub661MyMwAqRbcF" "0f056943"
              sample_vendor_accepted eq_refl eq_refl eq_refl eq_refl eq_refl
              eq_refl eq_refl eq_refl eq_refl)
    as (rec & Hrun & Hfp & _ & Hpass & _).
  exists rec. repeat split; assumption.
Defined.

Lemma uninitialized_device_record_witness :
  exists rec,
    sample_iteration (sample_unlocked false false) "" sample_transport
      ([], []) =
    (Return tt,
     ([rec],
      [("cdcacm:001:004", Stm32f4.NewClient "");
       ("cdcacm:001:004", Stm32f4.InitDevice);
       ("cdcacm:001:004", Stm32f4.Print "STMicroelectronics");
       ("cdcacm:001:004", Stm32f4.Close)])) /\
    rec !! "error" = Some (Stm32f4.VStr "Not initialized") /\
    rec !! "code" = Some (Stm32f4.VInt (-18)) /\
    rec !! "fingerprint" = None.
Proof.
  destruct (uninitialized_device_record sample_vendor_ids (-18) (-12) (-13)
              sample_msg
              (fun _ _ => inr (sample_client (sample_unlocked false false)))
              sample_fingerprint "" sample_transport [] []
              (sample_client (sample_unlocked false false))
              (sample_unlocked false false)
              sample_vendor_accepted eq_refl eq_refl eq_refl eq_refl eq_refl
              eq_refl eq_refl)
    as (rec & Hrun & Herr & Hcode & Hfp & _).
  exists rec. repeat split; assumption.
Defined.

Lemma passphrase_is_required_witness :
  exists rec,
    sample_iteration (sample_unlocked true true) "" sample_transport ([], []) =
    (Return tt,
     ([rec],
      [("cdcacm:001:004", Stm32f4.NewClient "");
       ("cdcacm:001:004", Stm32f4.InitDevice);
       ("cdcacm:001:004", Stm32f4.Print "STMicroelectronics");
       ("cdcacm:001:004", Stm32f4.Close)])) /\
    rec !! "needs_passphrase_sent" = Some (Stm32f4.VBool true) /\
    rec !! "fingerprint" = None.
Proof.
  destruct (passphrase_is_required sample_vendor_ids (-18) (-12) (-13)
              sample_msg
              (fun _ _ => inr (sample_client (sample_unlocked true true)))
              sample_fingerprint sample_transport [] []
              (sample_client (sample_unlocked true true))
              (sample_unlocked true true)
              sample_vendor_accepted eq_refl eq_refl eq_refl eq_refl eq_refl
              eq_refl)
    as (_ & rec & Hrun & Hpass & _ & Hfp).
  exists rec. repeat split; assumption.
Defined.

Lemma key_is_fetched_iff_ready_witness :
  exists new,
    (sample_iteration (sample_unlocked false true) "" sample_transport
       ([], [])).2.2 = [] ++ new /\
    ("cdcacm:001:004", Stm32f4.GetPubkeyAtPath "m/0h") ∈ new.
Proof.
  destruct (key_is_fetched_iff_ready sample_vendor_ids (-18) (-12) (-13)
              sample_msg
              (fun _ _ => inr (sample_client (sample_unlocked false true)))
              sample_fingerprint "" sample_transport [] []
              sample_vendor_accepted) as (new & Hrun & Hfetch).
  exists new. split; [exact Hrun|].
  apply Hfetch. split; [reflexivity|].
  exists (sample_client (sample_unlocked false true)),
         (sample_unlocked false true).
  repeat split.
Defined.

Lemma sample_locked_run :
  sample_enumerate (sample_features "STMicroelectronics" true false)
    [sample_transport] "" =
  (Return [sample_locked_record],
   [("cdcacm:001:004", Stm32f4.NewClient "");
    ("cdcacm:001:004", Stm32f4.InitDevice);
    ("cdcacm:001:004", Stm32f4.Print "STMicroelectronics");
    ("cdcacm:001:004", Stm32f4.Close)]).
Proof. vm_compute. reflexivity. Defined.


Lemma enumerate_fingerprint_or_error_witness :
  (is_Some (sample_locked_record !! "fingerprint") <->
   sample_locked_record !! "error" = None) /\
  (is_Some (sample_locked_record !! "error") <->
   is_Some (sample_locked_record !! "code")).
Proof.
  destruct (enumerate_fingerprint_or_error sample_vendor_ids (-18) (-12) (-13)
              sample_msg _ sample_fingerprint [sample_transport] "" _ _
              sample_locked_run sample_locked_record)
    as (Hxor & Hcode & _).
  - apply list_elem_of_here.
  - split; assumption.
Defined.

Lemma enumerate_model_witness :
  sample_locked_record !! "model" = Some (Stm32f4.VStr "stm32f4") \/
  (sample_locked_record !! "model" = Some (Stm32f4.VStr "stm32f4_simulator") /\
   sample_locked_record !! "path" = Some (Stm32f4.VStr "udp:127.0.0.1:21324")).
Proof.
  apply (enumerate_model sample_vendor_ids (-18) (-12) (-13)
           sample_msg _ sample_fingerprint [sample_transport] "" _ _
           sample_locked_run).
  apply list_elem_of_here.
Defined.

Lemma close_error_aborts_enumeration_witness :
  (sample_enumerate_close_raises (sample_unlocked false true)
     [sample_transport] "").1 = Raise (USBError 19) /\
  sample_enumerate_close_raises (sample_unlocked false true)
    [sample_transport; sample_transport] "" =
  sample_enumerate_close_raises (sample_unlocked false true)
    [sample_transport] "".
Proof.
  apply (close_error_aborts_enumeration sample_vendor_ids (-18) (-12) (-13)
           sample_msg
           (fun _ _ => inr (sample_client_close_raises
                              (sample_unlocked false true)))
           sample_fingerprint "" sample_transport [sample_transport]
           (sample_client_close_raises (sample_unlocked false true))
           (USBError 19) sample_vendor_accepted eq_refl).
  - intros ft Hft. injection Hft as <-. reflexivity.
  - reflexivity.
Defined.
